(** * destinepyauth: service registry, configuration factory, token exchange
      and the public [get_token] entry point.

    A shallow embedding of [destinepyauth/services.py], [destinepyauth/hooks.py],
    [destinepyauth/api.py] and the configuration model of
    [destinepyauth/configs.py].

    Python values are dynamically typed, so the registry ([Dict[str, Any]]),
    JSON bodies and configuration attributes all live in one value type
    [pyval].  Exceptions are an explicit result type, and the effects of the
    program (HTTP requests sent, configuration objects mutated by [setattr],
    the level of the library logger) are threaded through a state-and-error
    monad over a [World]. *)

From Stdlib Require Import ZArith String List.
From stdpp Require Import base list strings pretty functions.

Local Open Scope Z_scope.
Local Open Scope string_scope.

Set Warnings "-register-all".

(** ** Python values *)

(** A float is observed by this program in two ways only: its truth value
    and its [str()]; both are carried by the value. *)
Record pyfloat := { float_is_zero : bool; float_str : string }.

Inductive pyval :=
| PNone
| PBool (b : bool)
| PInt (z : Z)
| PFloat (f : pyfloat)
| PStr (s : string)
| PList (l : list pyval)
| PDict (d : list (string * pyval)).

(** A [dict] with string keys, in insertion order (the order that [keys()]
    and [items()] iterate in). *)
Definition pydict (V : Type) := list (string * V).

Fixpoint dict_lookup {V : Type} (d : pydict V) (key : string) : option V :=
  match d with
  | [] => None
  | (k, v) :: rest => if String.eqb k key then Some v else dict_lookup rest key
  end.

Definition dict_keys {V : Type} (d : pydict V) : list string := map fst d.

(** [sep.join(parts)] *)
Fixpoint str_join (sep : string) (parts : list string) : string :=
  match parts with
  | [] => ""
  | [p] => p
  | p :: rest => p +:+ sep +:+ str_join sep rest
  end.

(** The one-character string holding a double quote (code 34). *)
Definition dquote : string :=
  String (Ascii.Ascii false true false false false true false false) EmptyString.

(** [x is None] *)
Definition is_none (v : pyval) : bool :=
  match v with PNone => true | _ => false end.

(** [bool(x)]: the values that are false are [None], [False], zero, and the
    empty string, list and dict. *)
Definition truthy (v : pyval) : bool :=
  match v with
  | PNone => false
  | PBool b => b
  | PInt z => negb (Z.eqb z 0)
  | PFloat f => negb (float_is_zero f)
  | PStr s => negb (String.eqb s "")
  | PList l => match l with [] => false | _ => true end
  | PDict d => match d with [] => false | _ => true end
  end.

(** ** Exceptions and results *)

(** A raised exception, by the class that the raising code names.  How the
    Python classes inherit from one another is not represented. *)
Inductive exn :=
| ValueError (msg : string)
| KeyError (key : string)
| TypeError (msg : string)
| AttributeError (msg : string)
| UnboundLocalError (var : string)
| AuthenticationError (msg : string)
| JSONDecodeError
| RequestException (kind : string)
| ValidationError (field : string)
| ExternalError (kind : string).

Inductive Result (A : Type) :=
| Ok (a : A)
| Raise (e : exn).
Arguments Ok {A} a.
Arguments Raise {A} e.

(** [d[key]] and [d.get(key, default)] on a dict. *)
Definition dict_getitem {V : Type} (d : pydict V) (key : string) : Result V :=
  match dict_lookup d key with
  | Some x => Ok x
  | None => Raise (KeyError key)
  end.

Definition dict_get {V : Type} (d : pydict V) (key : string) (default : V) : V :=
  match dict_lookup d key with
  | Some x => x
  | None => default
  end.

(** [type(v).__name__] *)
Definition py_type_name (v : pyval) : string :=
  match v with
  | PNone => "NoneType"
  | PBool _ => "bool"
  | PInt _ => "int"
  | PFloat _ => "float"
  | PStr _ => "str"
  | PList _ => "list"
  | PDict _ => "dict"
  end.

Definition no_attribute (v : pyval) (name : string) : exn :=
  AttributeError ("'" +:+ py_type_name v +:+ "' object has no attribute '"
                  +:+ name +:+ "'").

(** The same two operations on a value of unknown type: only a dict has
    them. *)
Definition py_getitem (v : pyval) (key : string) : Result pyval :=
  match v with
  | PDict d => dict_getitem d key
  | _ => Raise (TypeError "object is not subscriptable by str")
  end.

Definition py_get (v : pyval) (key : string) (default : pyval) : Result pyval :=
  match v with
  | PDict d => Ok (dict_get d key default)
  | _ => Raise (no_attribute v "get")
  end.

Definition py_items (v : pyval) : Result (pydict pyval) :=
  match v with
  | PDict d => Ok d
  | _ => Raise (no_attribute v "items")
  end.

(** ** configs.py *)

Record BaseExchangeConfig := {
  token_url : pyval;
  audience : pyval;
  subject_issuer : pyval;
  client_id : pyval
}.

(** The value of a configuration attribute: a plain value or a nested
    [BaseExchangeConfig] instance. *)
Inductive attr :=
| APy (v : pyval)
| AExchange (e : BaseExchangeConfig).

Record BaseConfig := {
  user : pyval;
  password : pyval;
  iam_url : pyval;
  iam_realm : pyval;
  iam_client : pyval;
  iam_redirect_uri : pyval;
  scope : pyval;
  exchange_config : attr
}.

(** The declared field defaults of [BaseConfig]. *)
Definition BaseConfig_defaults : BaseConfig := {|
  user := PNone;
  password := PNone;
  iam_url := PStr "https://auth.destine.eu";
  iam_realm := PStr "desp";
  iam_client := PNone;
  iam_redirect_uri := PNone;
  scope := PStr "openid";
  exchange_config := APy PNone
|}.

Definition BaseConfig_fields : list string :=
  ["user"; "password"; "iam_url"; "iam_realm"; "iam_client";
   "iam_redirect_uri"; "scope"; "exchange_config"].

(** [getattr(config, key, default)].  A name that is not a declared field is
    taken to have no attribute, so the default is returned. *)
Definition getattr (c : BaseConfig) (key : string) (default : attr) : attr :=
  if String.eqb key "user" then APy (user c)
  else if String.eqb key "password" then APy (password c)
  else if String.eqb key "iam_url" then APy (iam_url c)
  else if String.eqb key "iam_realm" then APy (iam_realm c)
  else if String.eqb key "iam_client" then APy (iam_client c)
  else if String.eqb key "iam_redirect_uri" then APy (iam_redirect_uri c)
  else if String.eqb key "scope" then APy (scope c)
  else if String.eqb key "exchange_config" then exchange_config c
  else default.

(** Validation of an assigned value against the annotation of the field:
    [str], [str | None], and for [exchange_config] either [None] or a dict
    that validates as a [BaseExchangeConfig] (keys it does not declare are
    ignored). *)
Definition validate_str (field : string) (v : pyval) : Result pyval :=
  match v with
  | PStr _ => Ok v
  | _ => Raise (ValidationError field)
  end.

Definition validate_optional_str (field : string) (v : pyval) : Result pyval :=
  match v with
  | PNone | PStr _ => Ok v
  | _ => Raise (ValidationError field)
  end.

Definition validate_exchange_config (v : pyval) : Result attr :=
  match v with
  | PNone => Ok (APy PNone)
  | PDict d =>
      match validate_optional_str "token_url" (dict_get d "token_url" PNone),
            validate_optional_str "audience" (dict_get d "audience" PNone),
            validate_optional_str "subject_issuer" (dict_get d "subject_issuer" PNone),
            validate_optional_str "client_id" (dict_get d "client_id" PNone) with
      | Ok url, Ok aud, Ok iss, Ok cid =>
          Ok (AExchange {| token_url := url; audience := aud;
                           subject_issuer := iss; client_id := cid |})
      | _, _, _, _ => Raise (ValidationError "exchange_config")
      end
  | _ => Raise (ValidationError "exchange_config")
  end.

Definition result_map {A B : Type} (f : A -> B) (r : Result A) : Result B :=
  match r with
  | Ok a => Ok (f a)
  | Raise e => Raise e
  end.

(** [setattr(config, key, value)].  The model class rejects a name that is
    not a declared field with a [ValueError], and validates the value of a
    declared one on assignment. *)
Definition setattr (c : BaseConfig) (key : string) (v : pyval) : Result BaseConfig :=
  let '{| user := u; password := p; iam_url := iu; iam_realm := ir;
          iam_client := ic; iam_redirect_uri := iru; scope := s;
          exchange_config := ec |} := c in
  if String.eqb key "user" then
    result_map (fun x => Build_BaseConfig x p iu ir ic iru s ec)
               (validate_optional_str key v)
  else if String.eqb key "password" then
    result_map (fun x => Build_BaseConfig u x iu ir ic iru s ec)
               (validate_optional_str key v)
  else if String.eqb key "iam_url" then
    result_map (fun x => Build_BaseConfig u p x ir ic iru s ec)
               (validate_str key v)
  else if String.eqb key "iam_realm" then
    result_map (fun x => Build_BaseConfig u p iu x ic iru s ec)
               (validate_str key v)
  else if String.eqb key "iam_client" then
    result_map (fun x => Build_BaseConfig u p iu ir x iru s ec)
               (validate_optional_str key v)
  else if String.eqb key "iam_redirect_uri" then
    result_map (fun x => Build_BaseConfig u p iu ir ic x s ec)
               (validate_optional_str key v)
  else if String.eqb key "scope" then
    result_map (fun x => Build_BaseConfig u p iu ir ic iru x ec)
               (validate_str key v)
  else if String.eqb key "exchange_config" then
    result_map (fun x => Build_BaseConfig u p iu ir ic iru s x)
               (validate_exchange_config v)
  else Raise (ValueError (dquote +:+ "BaseConfig" +:+ dquote +:+ " object has no field "
                          +:+ dquote +:+ key +:+ dquote)).

(** A declared field together with a plain value that its annotation
    admits. *)
Definition assignable (key : string) (v : pyval) : bool :=
  if existsb (String.eqb key) ["user"; "password"; "iam_client"; "iam_redirect_uri"]
  then match v with PNone | PStr _ => true | _ => false end
  else if existsb (String.eqb key) ["iam_url"; "iam_realm"; "scope"]
  then match v with PStr _ => true | _ => false end
  else if String.eqb key "exchange_config" then is_none v
  else false.

Definition attr_is_none (a : attr) : bool :=
  match a with APy v => is_none v | AExchange _ => false end.

(** ** The world the program runs in *)

(** A reference to a configuration object. *)
Abbreviation ref := nat.

(** One call [requests.post(url, data=data, timeout=timeout)]; [data] is the
    dict that the HTTP library sends form-encoded. *)
Record PostCall := {
  post_url : pyval;
  post_data : pydict pyval;
  post_timeout : Z
}.

(** What the program observes of an HTTP response: the status, the raw body
    and the value [response.json()] parses from it ([None] when parsing
    raises). *)
Record Response := {
  status_code : Z;
  text : string;
  json : option pyval
}.

(** How a call to [requests.post] ends: with a response, or with an
    exception out of the call, which is recorded by its kind. *)
Inductive PostOutcome :=
| Responded (r : Response)
| NetworkError (kind : string).

Record World := {
  sent : list PostCall;          (* every POST issued so far, oldest first *)
  heap : ref -> BaseConfig;      (* the configuration objects, by reference *)
  logger_level : Z               (* level of the "destinepyauth" logger *)
}.

Definition record_post (call : PostCall) (w : World) : World :=
  {| sent := sent w ++ [call]; heap := heap w; logger_level := logger_level w |}.

Definition store_config (r : ref) (c : BaseConfig) (w : World) : World :=
  {| sent := sent w; heap := <[r := c]> (heap w); logger_level := logger_level w |}.

Definition store_level (level : Z) (w : World) : World :=
  {| sent := sent w; heap := heap w; logger_level := level |}.

(** ** A state-and-exception monad *)

Definition M (A : Type) : Type := World -> Result A * World.

Definition ret {A : Type} (a : A) : M A := fun w => (Ok a, w).

Definition raise {A : Type} (e : exn) : M A := fun w => (Raise e, w).

Definition bind {A B : Type} (m : M A) (k : A -> M B) : M B :=
  fun w =>
    match m w with
    | (Ok a, w') => k a w'
    | (Raise e, w') => (Raise e, w')
    end.

(** A pure computation that may raise. *)
Definition lift {A : Type} (r : Result A) : M A := fun w => (r, w).

(** [try: body / except Exception: handler] *)
Definition try_except {A : Type} (body : M A) (handler : exn -> M A) : M A :=
  fun w =>
    match body w with
    | (Ok a, w') => (Ok a, w')
    | (Raise e, w') => handler e w'
    end.

Declare Scope py_scope.
Delimit Scope py_scope with py.
Notation "x <- c1 ;; c2" := (bind c1 (fun x => c2))
  (at level 100, c1 at next level, right associativity) : py_scope.
Notation "c1 ;; c2" := (bind c1 (fun _ => c2))
  (at level 100, right associativity) : py_scope.
Local Open Scope py_scope.

(** A local name of a function body: unbound until its first assignment. *)
Inductive local (A : Type) :=
| Unbound
| Bound (a : A).
Arguments Unbound {A}.
Arguments Bound {A} a.

Definition read_local {A : Type} (name : string) (l : local A) : M A :=
  match l with
  | Bound a => ret a
  | Unbound => raise (UnboundLocalError name)
  end.

(** A post-authentication hook: [Callable[[str, BaseConfig], str]]. *)
Definition Hook : Type := string -> ref -> M pyval.

Definition result_of {A : Type} (m : M A) (w : World) : Result A := fst (m w).
Definition world_after {A : Type} (m : M A) (w : World) : World := snd (m w).

(** Attribute access on a configuration object held in the heap. *)
Definition py_getattr (config : ref) (key : string) (default : attr) : M attr :=
  fun w => (Ok (getattr (heap w config) key default), w).

Definition py_setattr (config : ref) (key : string) (v : pyval) : M unit :=
  fun w =>
    match setattr (heap w config) key v with
    | Ok c' => (Ok tt, store_config config c' w)
    | Raise e => (Raise e, w)
    end.

(** [logging.getLogger("destinepyauth").setLevel(level)] *)
Definition logging_INFO : Z := 20.
Definition logging_DEBUG : Z := 10.

Definition set_library_log_level (level : Z) : M unit :=
  fun w => (Ok tt, store_level level w).

(** [response.json()] *)
Definition response_json (r : Response) : Result pyval :=
  match json r with
  | Some v => Ok v
  | None => Raise JSONDecodeError
  end.

Section Program.

(** Python's [repr] on a [str] (the choice of quotes and the escapes). *)
Variable repr_str : string -> string.

(** The remote end: the outcome of a POST, given the POSTs that came before. *)
Variable http : list PostCall -> PostCall -> PostOutcome.

Fixpoint py_repr (v : pyval) : string :=
  match v with
  | PNone => "None"
  | PBool true => "True"
  | PBool false => "False"
  | PInt z => pretty z
  | PFloat f => float_str f
  | PStr s => repr_str s
  | PList l => "[" +:+ str_join ", " (map py_repr l) +:+ "]"
  | PDict d =>
      "{" +:+ str_join ", " (map (fun kv => let '(k, x) := kv in
                                            repr_str k +:+ ": " +:+ py_repr x) d) +:+ "}"
  end.

(** [str(v)], which is what an f-string substitutes. *)
Definition py_str (v : pyval) : string :=
  match v with
  | PStr s => s
  | _ => py_repr v
  end.

(** [requests.post(url, data=data, timeout=timeout)] *)
Definition requests_post (url : pyval) (data : pydict pyval) (timeout : Z) : M Response :=
  fun w =>
    let call := {| post_url := url; post_data := data; post_timeout := timeout |} in
    match http (sent w) call with
    | Responded r => (Ok r, record_post call w)
    | NetworkError kind => (Raise (RequestException kind), record_post call w)
    end.

(** ** hooks.py *)

Definition TOKEN_EXCHANGE_GRANT_TYPE : string :=
  "urn:ietf:params:oauth:grant-type:token-exchange".

Definition default_subject_token_type : string :=
  "urn:ietf:params:oauth:token-type:access_token".

(** [token_exchange]; the two keyword arguments that have defaults are
    optional here, [None] standing for an omitted argument.  The
    [logger.debug] lines only format their arguments and are left out. *)
Definition token_exchange
    (token_url : pyval) (subject_token : string) (client_id : pyval)
    (audience : pyval) (subject_issuer : pyval)
    (subject_token_type : option string) (timeout : option Z) : M pyval :=
  let subject_token_type := default default_subject_token_type subject_token_type in
  let timeout := default 10 timeout in
  let data : pydict pyval :=
    [ ("grant_type", PStr TOKEN_EXCHANGE_GRANT_TYPE);
      ("subject_token", PStr subject_token);
      ("subject_issuer", subject_issuer);
      ("subject_token_type", PStr subject_token_type);
      ("client_id", client_id);
      ("audience", audience) ] in
  response <- requests_post token_url data timeout ;;
  if negb (Z.eqb (status_code response) 200) then
    error_msg <-
      try_except
        (error_data <- lift (response_json response) ;;
         fallback <- lift (py_get error_data "error" (PStr "Unknown")) ;;
         lift (py_get error_data "error_description" fallback))
        (fun _ => ret (PStr (String.substring 0 200 (text response)))) ;;
    raise (AuthenticationError ("Exchange failed: " +:+ py_str error_msg))
  else
    result <- lift (response_json response) ;;
    exchanged_token <- lift (py_get result "access_token" PNone) ;;
    if negb (truthy exchanged_token) then
      raise (AuthenticationError "No access token in exchange response")
    else
      ret exchanged_token.

(** ** services.py *)

Definition _REGISTRY : pydict (pydict pyval) :=
  [ ("cacheb",
     [ ("scope", PStr "openid offline_access");
       ("defaults", PDict
          [ ("iam_client", PStr "edh-public");
            ("iam_redirect_uri", PStr "https://cacheb.dcms.destine.eu/") ]) ]);
    ("streamer",
     [ ("scope", PStr "openid");
       ("defaults", PDict
          [ ("iam_client", PStr "streaming-fe");
            ("iam_redirect_uri", PStr "https://streamer.destine.eu/") ]) ]);
    ("insula",
     [ ("scope", PStr "openid");
       ("defaults", PDict
          [ ("iam_client", PStr "insula-public");
            ("iam_redirect_uri", PStr "https://insula.destine.eu/") ]) ]);
    ("eden",
     [ ("scope", PStr "openid");
       ("defaults", PDict
          [ ("iam_client", PStr "hda-broker-public");
            ("iam_redirect_uri", PStr "https://broker.eden.destine.eu/") ]) ]);
    ("dea",
     [ ("scope", PStr "openid");
       ("defaults", PDict
          [ ("iam_client", PStr "dea_client");
            ("iam_redirect_uri", PStr "https://dea.destine.eu/") ]) ]);
    ("highway",
     [ ("scope", PStr "openid");
       ("defaults", PDict
          [ ("iam_client", PStr "highway-public");
            ("iam_redirect_uri",
             PStr "https://highway.esa.int/sso/auth/realms/highway/broker/DESP_IAM_PROD/endpoint") ]);
       ("token_exchange", PDict
          [ ("token_url",
             PStr "https://highway.esa.int/sso/auth/realms/highway/protocol/openid-connect/token");
            ("audience", PStr "highway-public");
            ("subject_issuer", PStr "DESP_IAM_PROD");
            ("client_id", PStr "highway-public") ]) ]);
    ("polytope",
     [ ("scope", PStr "openid offline_access");
       ("defaults", PDict
          [ ("iam_client", PStr "polytope-api-public");
            ("iam_redirect_uri",
             PStr "https://polytope.lumi.apps.dte.destination-earth.eu/") ]) ]);
    ("hda",
     [ ("scope", PStr "openid");
       ("defaults", PDict
          [ ("iam_client", PStr "dedl-hda");
            ("iam_redirect_uri", PStr "https://hda.data.destination-earth.eu/stac") ]);
       ("token_exchange", PDict
          [ ("token_url",
             PStr "https://identity.data.destination-earth.eu/auth/realms/dedl/protocol/openid-connect/token");
            ("audience", PStr "hda-public");
            ("subject_issuer", PStr "desp-oidc");
            ("client_id", PStr "hda-public") ]) ]) ].

(** [ServiceRegistry.get_service_info] *)
Definition get_service_info (service_name : string) : Result (pydict pyval) :=
  match dict_lookup _REGISTRY service_name with
  | None =>
      let available := str_join ", " (dict_keys _REGISTRY) in
      Raise (ValueError ("Unknown service: " +:+ service_name
                         +:+ ". Available: " +:+ available))
  | Some info => Ok info
  end.

(** [ServiceRegistry.list_services] *)
Definition list_services : list string := dict_keys _REGISTRY.

(** [Conflator("despauth", BaseConfig).load()]: the configuration library
    builds a configuration object from the environment, the command line
    and configuration files, and returns a reference to it (or raises). *)
Variable Conflator_load : M ref.

(** The loop of [load_config] over [defaults.items()]. *)
Fixpoint apply_service_defaults (config : ref) (items : pydict pyval) : M unit :=
  match items with
  | [] => ret tt
  | (key, default_value) :: rest =>
      current_value <- py_getattr config key (APy PNone) ;;
      (if attr_is_none current_value
       then py_setattr config key default_value
       else ret tt) ;;
      apply_service_defaults config rest
  end.

(** The closure [_exchange_hook], over the four names it captures. *)
Definition _exchange_hook (token_url audience subject_issuer client_id : pyval) : Hook :=
  fun (access_token : string) (cfg : ref) =>
    token_exchange token_url access_token client_id audience subject_issuer
                   None (Some 10).

(** [ConfigurationFactory.load_config].  The local name [hook] is assigned
    in the [if] branch only. *)
Definition load_config (service_name : string) : M (ref * pyval * option Hook) :=
  service_info <- lift (get_service_info service_name) ;;
  scope <- lift (dict_getitem service_info "scope") ;;
  let defaults := dict_get service_info "defaults" (PDict []) in
  let exchange_cfg := dict_get service_info "token_exchange" PNone in
  config <- Conflator_load ;;
  items <- lift (py_items defaults) ;;
  apply_service_defaults config items ;;
  hook <-
    (if negb (is_none exchange_cfg) then
       token_url <- lift (py_getitem exchange_cfg "token_url") ;;
       audience <- lift (py_getitem exchange_cfg "audience") ;;
       subject_issuer <- lift (py_getitem exchange_cfg "subject_issuer") ;;
       client_id <- lift (py_get exchange_cfg "client_id" PNone) ;;
       ret (Bound (Some (_exchange_hook token_url audience subject_issuer client_id)))
     else
       ret Unbound) ;;
  hook <- read_local "hook" hook ;;
  ret (config, scope, hook).

(** ** api.py *)

(** [destinepyauth.authentication] lies outside this development: the
    service object, its constructor and its two login operations are
    parameters, free to send requests, mutate the heap and raise. *)
Variable AuthService : Type.
Variable TokenResult : Type.
Variable AuthenticationService : ref -> pyval -> option Hook -> M AuthService.
Variable login : AuthService -> bool -> M TokenResult.
Variable login_2fa : AuthService -> bool -> option string -> M TokenResult.

(** [get_token]; [None] as the result is the function falling off its end. *)
Definition get_token (service : string) (write_netrc verbose twofa : bool)
    (otp : option string) : M (option TokenResult) :=
  let log_level := if negb verbose then logging_INFO else logging_DEBUG in
  set_library_log_level log_level ;;
  loaded <- load_config service ;;
  let '(config, scope, hook) := loaded in
  auth_service <- AuthenticationService config scope hook ;;
  result <- (if twofa
             then login_2fa auth_service write_netrc otp
             else login auth_service write_netrc) ;;
  if negb write_netrc then ret (Some result) else ret None.

(** ** Notions used in the statements *)

(** [needle in haystack] on strings. *)
Fixpoint str_contains (needle haystack : string) : bool :=
  String.prefix needle haystack
  || match haystack with
     | EmptyString => false
     | String _ rest => str_contains needle rest
     end.

(** A field of the JSON object in the body of a response; there is none
    when the body is not JSON or is JSON of another kind. *)
Definition body_field (r : Response) (name : string) : option pyval :=
  match json r with
  | Some (PDict d) => dict_lookup d name
  | _ => None
  end.

Definition body_is_object (r : Response) : bool :=
  match json r with
  | Some (PDict _) => true
  | _ => false
  end.

(** The detail that a failed exchange reports: from a JSON object, its
    [error_description], else its [error], else the word [Unknown]; from any
    other body, the first 200 characters of the raw text. *)
Definition failure_detail (r : Response) : string :=
  if body_is_object r then
    match body_field r "error_description" with
    | Some v => py_str v
    | None =>
        match body_field r "error" with
        | Some v => py_str v
        | None => "Unknown"
        end
    end
  else String.substring 0 200 (text r).

(** The detail as the specification words it: [error_description] if
    present, else [error], else the first 200 characters of the raw body. *)
Definition spec_failure_detail (r : Response) : string :=
  match body_field r "error_description" with
  | Some v => py_str v
  | None =>
      match body_field r "error" with
      | Some v => py_str v
      | None => String.substring 0 200 (text r)
      end
  end.

(** The request that [token_exchange] is expected to send, written out. *)
Definition exchange_request
    (token_url : pyval) (subject_token : string) (client_id : pyval)
    (audience : pyval) (subject_issuer : pyval)
    (subject_token_type : option string) (timeout : option Z) : PostCall :=
  {| post_url := token_url;
     post_data :=
       [ ("grant_type", PStr "urn:ietf:params:oauth:grant-type:token-exchange");
         ("subject_token", PStr subject_token);
         ("subject_issuer", subject_issuer);
         ("subject_token_type",
          PStr (match subject_token_type with
                | Some t => t
                | None => "urn:ietf:params:oauth:token-type:access_token"
                end));
         ("client_id", client_id);
         ("audience", audience) ];
     post_timeout := match timeout with Some t => t | None => 10 end |}.

(** The service names, as the documentation lists them. *)
Definition registered_names : list string :=
  ["cacheb"; "streamer"; "insula"; "eden"; "dea"; "highway"; "polytope"; "hda"].

(** What the loop leaves in an attribute that held [before], for a defaults
    map [items]: the default if the attribute was [None] and the map has
    one, else what was there. *)
Definition defaulted (items : pydict pyval) (key : string) (before : attr) : attr :=
  if attr_is_none before then
    match dict_lookup items key with
    | Some v => APy v
    | None => before
    end
  else before.

(** The defaults map, the scope and the exchange section that the registry
    holds for a service name. *)
Definition service_defaults (name : string) : pydict pyval :=
  match dict_lookup _REGISTRY name with
  | Some info =>
      match dict_lookup info "defaults" with
      | Some (PDict d) => d
      | _ => []
      end
  | None => []
  end.

Definition service_scope (name : string) : option pyval :=
  match dict_lookup _REGISTRY name with
  | Some info => dict_lookup info "scope"
  | None => None
  end.

Definition service_exchange (name : string) : option pyval :=
  match dict_lookup _REGISTRY name with
  | Some info => dict_lookup info "token_exchange"
  | None => None
  end.

(** The registered services that have no [token_exchange] section. *)
Definition plain_names : list string :=
  ["cacheb"; "streamer"; "insula"; "eden"; "dea"; "polytope"].

Definition highway_token_url : pyval :=
  PStr "https://highway.esa.int/sso/auth/realms/highway/protocol/openid-connect/token".

End Program.

Arguments get_token repr_str http Conflator_load {AuthService TokenResult}
  AuthenticationService login login_2fa service write_netrc verbose twofa otp.

(** ** Concrete environments *)

Definition sample_repr_str (s : string) : string := "'" +:+ s +:+ "'".

(** A configuration as loaded with the user, the password and the client
    taken from the environment. *)
Definition sample_loaded_config : BaseConfig := {|
  user := PStr "alice";
  password := PStr "s3cret";
  iam_url := PStr "https://auth.destine.eu";
  iam_realm := PStr "desp";
  iam_client := PStr "client-from-env";
  iam_redirect_uri := PNone;
  scope := PStr "openid";
  exchange_config := APy PNone
|}.

Definition sample_world : World :=
  {| sent := []; heap := fun _ => BaseConfig_defaults; logger_level := 0 |}.

Definition sample_Conflator_load : M ref :=
  fun w => (Ok 0%nat, store_config 0%nat sample_loaded_config w).

Definition invalid_grant_response : Response :=
  {| status_code := 400;
     text := "{" +:+ dquote +:+ "error" +:+ dquote +:+ ":"
             +:+ dquote +:+ "invalid_grant" +:+ dquote +:+ "}";
     json := Some (PDict [("error", PStr "invalid_grant")]) |}.

Definition empty_object_response : Response :=
  {| status_code := 500; text := "{}"; json := Some (PDict []) |}.

Definition exchanged_response : Response :=
  {| status_code := 200;
     text := "{" +:+ dquote +:+ "access_token" +:+ dquote +:+ ":"
             +:+ dquote +:+ "exchanged-token" +:+ dquote +:+ "}";
     json := Some (PDict [("access_token", PStr "exchanged-token")]) |}.

Definition sample_token_url : pyval := PStr "https://sso.example/token".

(** A remote end that gives the same answer to every request. *)
Definition server_of (r : Response) : list PostCall -> PostCall -> PostOutcome :=
  fun _ _ => Responded r.

(** A service object that records what it was built from, and a login that
    obtains the token "iam-token" and passes it through the hook, if any. *)
Definition sample_service : Type := (ref * pyval * option Hook)%type.

Definition sample_AuthenticationService
    (config : ref) (scope : pyval) (hook : option Hook) : M sample_service :=
  ret (config, scope, hook).

Definition sample_login (a : sample_service) (write_netrc : bool) : M pyval :=
  let '(config, _, hook) := a in
  match hook with
  | Some h => h "iam-token" config
  | None => ret (PStr "iam-token")
  end.

Definition sample_login_2fa (a : sample_service) (write_netrc : bool)
    (otp : option string) : M pyval :=
  sample_login a write_netrc.

(** ** Further notions and environments *)

(** The registered services that have a [token_exchange] section. *)
Definition exchange_names : list string := ["highway"; "hda"].

(** The message of the error for an unknown service name. *)
Definition unknown_service_message (name : string) : string :=
  "Unknown service: " +:+ name
  +:+ ". Available: cacheb, streamer, insula, eden, dea, highway, polytope, hda".

(** A configuration loader that fails, a remote end that cannot be reached,
    and answers whose body is not a JSON object. *)
Definition failing_Conflator_load : M ref :=
  fun w => (Raise (ExternalError "ValidationError"), w).

Definition server_down : list PostCall -> PostCall -> PostOutcome :=
  fun _ _ => NetworkError "ConnectionError".

Definition html_ok_response : Response :=
  {| status_code := 200; text := "<html>ok</html>"; json := None |}.

Definition list_ok_response : Response :=
  {| status_code := 200; text := "[]"; json := Some (PList []) |}.

Definition empty_token_response : Response :=
  {| status_code := 200;
     text := "{" +:+ dquote +:+ "access_token" +:+ dquote +:+ ":"
             +:+ dquote +:+ dquote +:+ "}";
     json := Some (PDict [("access_token", PStr "")]) |}.

Definition bad_gateway_response : Response :=
  {| status_code := 502; text := "Bad Gateway"; json := None |}.

(** A configuration in which both service-dependent fields are set. *)
Definition sample_explicit_config : BaseConfig := {|
  user := PNone;
  password := PNone;
  iam_url := PStr "https://auth.destine.eu";
  iam_realm := PStr "desp";
  iam_client := PStr "client-from-cli";
  iam_redirect_uri := PStr "https://redirect.example/";
  scope := PStr "openid";
  exchange_config := APy PNone
|}.

Definition explicit_Conflator_load : M ref :=
  fun w => (Ok 0%nat, store_config 0%nat sample_explicit_config w).

(** A login that the identity provider rejects. *)
Definition rejected_login (a : sample_service) (write_netrc : bool) : M pyval :=
  raise (AuthenticationError "Invalid user credentials").

(** * Properties *)

Section Properties.

Variable repr_str : string -> string.
Variable http : list PostCall -> PostCall -> PostOutcome.

(** ** The monad *)

Lemma bind_ok_inv {A B : Type} (m : M A) (k : A -> M B) (w w' : World) (b : B) :
  bind m k w = (Ok b, w') ->
  exists a w1, m w = (Ok a, w1) /\ k a w1 = (Ok b, w').
Proof.
  unfold bind. destruct (m w) as [[a | e] w1]; intros H.
  - exists a, w1. split; [reflexivity | exact H].
  - discriminate H.
Qed.

Lemma bind_ok_step {A B : Type} (m : M A) (k : A -> M B) (w w1 : World) (a : A) :
  m w = (Ok a, w1) -> bind m k w = k a w1.
Proof. unfold bind. intros ->. reflexivity. Qed.

Lemma bind_raise_step {A B : Type} (m : M A) (k : A -> M B) (w w1 : World) (e : exn) :
  m w = (Raise e, w1) -> bind m k w = (Raise e, w1).
Proof. unfold bind. intros ->. reflexivity. Qed.

Lemma lift_ok_inv {A : Type} (r : Result A) (w w' : World) (a : A) :
  lift r w = (Ok a, w') -> r = Ok a /\ w' = w.
Proof. unfold lift. intros H. injection H as -> ->. split; reflexivity. Qed.

(** ** hooks.py: [token_exchange] *)

Section TokenExchange.

Variables (token_url : pyval) (subject_token : string) (client_id : pyval)
          (audience : pyval) (subject_issuer : pyval)
          (subject_token_type : option string) (timeout : option Z).

Let exchange : M pyval :=
  token_exchange repr_str http token_url subject_token client_id audience subject_issuer
                 subject_token_type timeout.

Let request : PostCall :=
  exchange_request token_url subject_token client_id audience subject_issuer
                   subject_token_type timeout.

(** Whatever happens, the world after the call has one more POST in it. *)
Lemma token_exchange_world (w : World) :
  world_after exchange w = record_post request w.
Proof.
  unfold world_after, exchange, token_exchange, bind, requests_post.
  fold request.
  change {| post_url := token_url; post_data := _; post_timeout := _ |} with request.
  destruct (http (sent w) request) as [r | kind]; [| reflexivity].
  destruct (negb (status_code r =? 200)%Z).
  - unfold try_except, bind, lift, raise, ret.
    destruct (response_json r) as [v | e]; [| reflexivity].
    destruct (py_get v "error" (PStr "Unknown")) as [v1 | e1]; [| reflexivity].
    destruct (py_get v "error_description" v1); reflexivity.
  - unfold lift, raise, ret.
    destruct (response_json r) as [v | e]; [| reflexivity].
    destruct (py_get v "access_token" PNone) as [t | e1]; [| reflexivity].
    destruct (negb (truthy t)); reflexivity.
Qed.

Lemma token_exchange_network_error (w : World) (kind : string) :
  http (sent w) request = NetworkError kind ->
  result_of exchange w = Raise (RequestException kind).
Proof.
  intros H.
  unfold result_of, exchange, token_exchange, bind, requests_post.
  change {| post_url := token_url; post_data := _; post_timeout := _ |} with request.
  rewrite H. reflexivity.
Qed.

Lemma token_exchange_status_200 (w : World) (r : Response) :
  http (sent w) request = Responded r ->
  status_code r = 200 ->
  result_of exchange w =
    match response_json r with
    | Raise e => Raise e
    | Ok body =>
        match py_get body "access_token" PNone with
        | Raise e => Raise e
        | Ok tok =>
            if truthy tok then Ok tok
            else Raise (AuthenticationError "No access token in exchange response")
        end
    end.
Proof.
  intros H Hs.
  unfold result_of, exchange, token_exchange, bind, requests_post.
  change {| post_url := token_url; post_data := _; post_timeout := _ |} with request.
  rewrite H, Hs. cbn [Z.eqb Pos.eqb negb].
  unfold lift, raise, ret.
  destruct (response_json r) as [body | e]; [| reflexivity].
  destruct (py_get body "access_token" PNone) as [tok | e]; [| reflexivity].
  destruct (truthy tok); reflexivity.
Qed.

Lemma token_exchange_status_other (w : World) (r : Response) :
  http (sent w) request = Responded r ->
  status_code r <> 200 ->
  result_of exchange w =
    Raise (AuthenticationError ("Exchange failed: " +:+ failure_detail repr_str r)).
Proof.
  intros H Hs.
  unfold result_of, exchange, token_exchange, bind, requests_post.
  change {| post_url := token_url; post_data := _; post_timeout := _ |} with request.
  rewrite H.
  apply Z.eqb_neq in Hs. rewrite Hs. cbn [negb].
  unfold failure_detail, body_is_object, body_field, response_json,
    try_except, bind, lift, raise, ret.
  destruct (json r) as [body |]; [| reflexivity].
  destruct body; try reflexivity.
  cbn [py_get]. unfold dict_get.
  destruct (dict_lookup d "error_description"); [reflexivity |].
  destruct (dict_lookup d "error"); reflexivity.
Qed.

Lemma token_exchange_ok (w : World) (r : Response) (d : pydict pyval) (tok : pyval) :
  http (sent w) request = Responded r ->
  status_code r = 200 ->
  json r = Some (PDict d) ->
  dict_lookup d "access_token" = Some tok ->
  truthy tok = true ->
  result_of exchange w = Ok tok.
Proof.
  intros H Hs Hj Hd Ht.
  rewrite (token_exchange_status_200 w r H Hs).
  unfold response_json. rewrite Hj. cbn [py_get]. unfold dict_get.
  rewrite Hd, Ht. reflexivity.
Qed.

(** A returned token is never a false value. *)
Lemma token_exchange_returns_truthy (w : World) (tok : pyval) :
  result_of exchange w = Ok tok -> truthy tok = true.
Proof.
  destruct (http (sent w) request) as [r | kind] eqn:H.
  - destruct (Z.eq_dec (status_code r) 200) as [Hs | Hs].
    + rewrite (token_exchange_status_200 w r H Hs).
      destruct (response_json r) as [body | e]; [| discriminate].
      destruct (py_get body "access_token" PNone) as [t | e]; [| discriminate].
      destruct (truthy t) eqn:Ht; [| discriminate].
      intros [= <-]. exact Ht.
    + rewrite (token_exchange_status_other w r H Hs). discriminate.
  - rewrite (token_exchange_network_error w kind H). discriminate.
Qed.

(** C3: [token_exchange] sends exactly one POST, whatever the outcome: the
    requests sent after the call are those sent before it followed by the one
    form request to the given token URL, carrying the RFC 8693 grant type,
    the subject token type (the access-token type when omitted) and the
    timeout (10 when omitted).  When the answer has status 200 and its JSON
    object holds a true (non-empty) [access_token], exactly that value is
    returned. *)
Theorem token_exchange_sends_one_request (w : World) :
  sent (world_after
          (token_exchange repr_str http token_url subject_token client_id audience
             subject_issuer subject_token_type timeout) w)
  = (sent w ++ [exchange_request token_url subject_token client_id audience
                  subject_issuer subject_token_type timeout])%list
  /\ (forall (r : Response) (d : pydict pyval) (tok : pyval),
        http (sent w)
             (exchange_request token_url subject_token client_id audience
                subject_issuer subject_token_type timeout) = Responded r ->
        status_code r = 200 ->
        json r = Some (PDict d) ->
        dict_lookup d "access_token" = Some tok ->
        truthy tok = true ->
        result_of
          (token_exchange repr_str http token_url subject_token client_id audience
             subject_issuer subject_token_type timeout) w = Ok tok).
Proof.
  split.
  - exact (f_equal sent (token_exchange_world w)).
  - intros r d tok. apply token_exchange_ok.
Qed.

(** C8 (as amended): on a 200 answer whose body is a JSON object that has
    no [access_token], or has one that is false (such as the empty string),
    [token_exchange] raises [AuthenticationError] with the message "No access
    token in exchange response"; a value it returns is never false, so never
    the empty string. *)
Theorem token_exchange_rejects_empty_token (w : World) :
  (forall (r : Response) (d : pydict pyval),
      http (sent w)
           (exchange_request token_url subject_token client_id audience
              subject_issuer subject_token_type timeout) = Responded r ->
      status_code r = 200 ->
      json r = Some (PDict d) ->
      (dict_lookup d "access_token" = None
       \/ exists v, dict_lookup d "access_token" = Some v /\ truthy v = false) ->
      result_of
        (token_exchange repr_str http token_url subject_token client_id audience
           subject_issuer subject_token_type timeout) w
      = Raise (AuthenticationError "No access token in exchange response"))
  /\ (forall tok : pyval,
        result_of
          (token_exchange repr_str http token_url subject_token client_id audience
             subject_issuer subject_token_type timeout) w = Ok tok ->
        truthy tok = true /\ tok <> PStr "").
Proof.
  split.
  - intros r d H Hs Hj Hd.
    pose proof (token_exchange_status_200 w r H Hs) as E.
    unfold exchange in E. rewrite E.
    unfold response_json. rewrite Hj. cbn [py_get]. unfold dict_get.
    destruct Hd as [-> | (v & -> & Hv)].
    + reflexivity.
    + rewrite Hv. reflexivity.
  - intros tok H. pose proof (token_exchange_returns_truthy w tok H) as Ht.
    split; [exact Ht |]. intros ->. discriminate Ht.
Qed.

(** C2 (as amended): when the response status is not 200, [token_exchange]
    raises [AuthenticationError] and returns no token.  The message is
    "Exchange failed: " followed by, for a body that is a JSON object, its
    [error_description] if present, else its [error] if present, else the
    word "Unknown"; and for any other body, the first 200 characters of the
    raw text.  A 400 answer with body [{"error":"invalid_grant"}] raises an
    [AuthenticationError] whose message contains "invalid_grant". *)
Theorem token_exchange_failure (w : World) (r : Response) :
  http (sent w)
       (exchange_request token_url subject_token client_id audience
          subject_issuer subject_token_type timeout) = Responded r ->
  status_code r <> 200 ->
  result_of
    (token_exchange repr_str http token_url subject_token client_id audience
       subject_issuer subject_token_type timeout) w
  = Raise (AuthenticationError ("Exchange failed: " +:+ failure_detail repr_str r))
  /\ (forall tok : pyval,
        result_of
          (token_exchange repr_str http token_url subject_token client_id audience
             subject_issuer subject_token_type timeout) w <> Ok tok)
  /\ (status_code r = 400 ->
      json r = Some (PDict [("error", PStr "invalid_grant")]) ->
      exists msg,
        result_of
          (token_exchange repr_str http token_url subject_token client_id audience
             subject_issuer subject_token_type timeout) w
        = Raise (AuthenticationError msg)
        /\ str_contains "invalid_grant" msg = true).
Proof.
  intros H Hs.
  pose proof (token_exchange_status_other w r H Hs) as E.
  split; [exact E |]. split.
  - intros tok. unfold exchange in E. rewrite E. discriminate.
  - intros _ Hj. eexists. split; [exact E |].
    unfold failure_detail, body_is_object, body_field. rewrite Hj.
    reflexivity.
Qed.

End TokenExchange.

(** ** services.py: the registry *)

Lemma dict_lookup_none {V : Type} (d : pydict V) (key : string) :
  dict_lookup d key = None <-> ~ In key (dict_keys d).
Proof.
  induction d as [| [k v] rest IH]; cbn.
  - split; [intros _ [] | reflexivity].
  - destruct (String.eqb_spec k key) as [-> | Hne].
    + split; [discriminate | intros H; exfalso; apply H; left; reflexivity].
    + rewrite IH. split.
      * intros H [Heq | Hin]; [exact (Hne Heq) | exact (H Hin)].
      * intros H Hin. apply H. right. exact Hin.
Qed.

Lemma dict_lookup_some_in {V : Type} (d : pydict V) (key : string) (v : V) :
  dict_lookup d key = Some v -> In (key, v) d.
Proof.
  induction d as [| [k x] rest IH]; cbn; [discriminate |].
  destruct (String.eqb_spec k key) as [-> | Hne].
  - intros [= ->]. left. reflexivity.
  - intros H. right. exact (IH H).
Qed.

Lemma list_services_names : list_services = registered_names.
Proof. reflexivity. Qed.

(** C4: [get_service_info] raises exactly when the name is not registered;
    what it raises is a [ValueError], which is not an
    [AuthenticationError]; for a registered name it returns the entry that
    the registry holds under that name. *)
Theorem get_service_info_spec (name : string) :
  ((exists e, get_service_info name = Raise e) <-> ~ In name registered_names)
  /\ (forall e, get_service_info name = Raise e ->
        (exists msg, e = ValueError msg)
        /\ (forall msg, e <> AuthenticationError msg))
  /\ (In name registered_names ->
      exists info,
        get_service_info name = Ok info
        /\ dict_lookup _REGISTRY name = Some info
        /\ In (name, info) _REGISTRY).
Proof.
  rewrite <- list_services_names. unfold list_services, get_service_info.
  pose proof (dict_lookup_none _REGISTRY name) as Hnone.
  pose proof (dict_lookup_some_in _REGISTRY name) as Hsome.
  destruct (dict_lookup _REGISTRY name) as [info |].
  - split; [| split].
    + split.
      * intros [e He]. discriminate He.
      * intros Hn. apply Hnone in Hn. discriminate Hn.
    + intros e He. discriminate He.
    + intros _. exists info. split; [reflexivity |]. split; [reflexivity |].
      apply Hsome. reflexivity.
  - split; [| split].
    + split.
      * intros _. apply Hnone. reflexivity.
      * intros _. eexists. reflexivity.
    + intros e [= <-]. split; [eexists; reflexivity | discriminate].
    + intros Hin. exfalso. apply (proj1 Hnone); [reflexivity | exact Hin].
Qed.

(** ** configs.py: attribute access *)

Lemma getattr_undeclared (c : BaseConfig) (key : string) (default : attr) :
  ~ In key BaseConfig_fields -> getattr c key default = default.
Proof.
  intros Hn. unfold getattr.
  repeat match goal with
         | |- context [String.eqb key ?s] =>
             destruct (String.eqb_spec key s) as [-> | _];
             [exfalso; apply Hn; cbn; tauto |]
         end.
  reflexivity.
Qed.

Lemma setattr_declared (c : BaseConfig) (k : string) (v : pyval) :
  assignable k v = true ->
  exists c',
    setattr c k v = Ok c'
    /\ forall key default,
         getattr c' key default
         = if String.eqb key k then APy v else getattr c key default.
Proof.
  intros Ha. destruct c as [u p iu ir ic iru s ec].
  unfold assignable in Ha. cbn [existsb] in Ha.
  repeat match type of Ha with
         | context [String.eqb k ?name] =>
             destruct (String.eqb_spec k name) as [-> | _];
             [ cbn in Ha; destruct v; try discriminate Ha;
               eexists; (split; [reflexivity |]);
               intros key default; unfold getattr;
               repeat match goal with
                      | |- context [String.eqb key ?f] =>
                          destruct (String.eqb_spec key f) as [-> | _];
                          [reflexivity |]
                      end;
               reflexivity
             | cbn [orb] in Ha ]
         end.
  discriminate Ha.
Qed.

(** ** services.py: the defaults loop *)

Lemma heap_store_same (r : ref) (c : BaseConfig) (w : World) :
  heap (store_config r c w) r = c.
Proof. cbn. apply fn_lookup_insert. Qed.

Lemma heap_store_other (r r' : ref) (c : BaseConfig) (w : World) :
  r' <> r -> heap (store_config r c w) r' = heap w r'.
Proof. intros Hne. cbn. apply fn_lookup_insert_ne. congruence. Qed.

Lemma apply_service_defaults_spec (config : ref) (items : pydict pyval) :
  Forall (fun kv => assignable (fst kv) (snd kv) = true) items ->
  List.NoDup (dict_keys items) ->
  forall w : World,
  exists w',
    apply_service_defaults config items w = (Ok tt, w')
    /\ sent w' = sent w
    /\ logger_level w' = logger_level w
    /\ (forall r, r <> config -> heap w' r = heap w r)
    /\ (forall key,
          getattr (heap w' config) key (APy PNone)
          = defaulted items key (getattr (heap w config) key (APy PNone))).
Proof.
  induction items as [| [k v] rest IH]; intros HF HN w.
  - exists w. cbn. repeat split; try reflexivity.
    intros key. unfold defaulted. cbn.
    destruct (attr_is_none _); reflexivity.
  - inversion HF as [| ? ? Hk HF']; subst.
    inversion HN as [| ? ? Hfresh HN']; subst.
    cbn in Hk. apply dict_lookup_none in Hfresh.
    cbn [apply_service_defaults]. unfold bind at 1. unfold py_getattr.
    destruct (attr_is_none (getattr (heap w config) k (APy PNone))) eqn:Hcur.
    + destruct (setattr_declared (heap w config) k v Hk) as (c' & Hset & Hget).
      unfold bind at 1. unfold py_setattr. rewrite Hset.
      destruct (IH HF' HN' (store_config config c' w))
        as (w' & Hrun & Hsent & Hlvl & Hframe & Hattr).
      exists w'. split; [exact Hrun |].
      split; [exact Hsent |]. split; [exact Hlvl |]. split.
      * intros r Hr. rewrite (Hframe r Hr). apply heap_store_other. exact Hr.
      * intros key. rewrite Hattr, heap_store_same, Hget.
        unfold defaulted. cbn [dict_lookup].
        rewrite (String.eqb_sym k key).
        destruct (String.eqb_spec key k) as [-> | Hne].
        -- rewrite Hcur, Hfresh. destruct (attr_is_none (APy v)); reflexivity.
        -- reflexivity.
    + unfold bind at 1. unfold ret at 1.
      destruct (IH HF' HN' w) as (w' & Hrun & Hsent & Hlvl & Hframe & Hattr).
      exists w'. split; [exact Hrun |].
      split; [exact Hsent |]. split; [exact Hlvl |]. split; [exact Hframe |].
      intros key. rewrite Hattr. unfold defaulted. cbn [dict_lookup].
      destruct (String.eqb_spec k key) as [-> | Hne]; [| reflexivity].
      rewrite Hcur. reflexivity.
Qed.

(** ** services.py: [load_config] *)

Lemma plain_names_spec (name : string) :
  In name plain_names <-> In name registered_names /\ service_exchange name = None.
Proof.
  split.
  - intros H. cbn in H.
    repeat (destruct H as [<- | H]; [split; [cbn; tauto | reflexivity] |]).
    destruct H.
  - intros [H E]. cbn in H.
    repeat (destruct H as [<- | H]; [first [cbn; tauto | discriminate E] |]).
    destruct H.
Qed.

(** Every registered entry has a scope and a defaults map over declared
    configuration fields. *)
Lemma registry_entry_shape (name : string) :
  In name registered_names ->
  exists info scope,
    get_service_info name = Ok info
    /\ dict_getitem info "scope" = Ok scope
    /\ service_scope name = Some scope
    /\ dict_get info "defaults" (PDict []) = PDict (service_defaults name)
    /\ dict_get info "token_exchange" PNone
       = match service_exchange name with Some x => x | None => PNone end
    /\ Forall (fun kv => assignable (fst kv) (snd kv) = true)
         (service_defaults name)
    /\ List.NoDup (dict_keys (service_defaults name)).
Proof.
  intros H. cbn in H.
  repeat (destruct H as [<- | H];
          [ do 2 eexists; repeat (split; [reflexivity |]); split;
            [ repeat constructor
            | repeat constructor; cbn; intuition discriminate ]
          | ]).
  destruct H.
Qed.

Variable Conflator_load : M ref.

(** The run of [load_config] up to the point where the hook is built. *)
Lemma load_config_run (name : string) (w w1 : World) (config : ref) :
  In name registered_names ->
  Conflator_load w = (Ok config, w1) ->
  exists scope w2,
    service_scope name = Some scope
    /\ apply_service_defaults config (service_defaults name) w1 = (Ok tt, w2)
    /\ load_config repr_str http Conflator_load name w
       = match service_exchange name with
         | None => (Raise (UnboundLocalError "hook"), w2)
         | Some x =>
             (hook <-
                (if negb (is_none x) then
                   token_url <- lift (py_getitem x "token_url") ;;
                   audience <- lift (py_getitem x "audience") ;;
                   subject_issuer <- lift (py_getitem x "subject_issuer") ;;
                   client_id <- lift (py_get x "client_id" PNone) ;;
                   ret (Bound (Some (_exchange_hook repr_str http token_url audience
                                       subject_issuer client_id)))
                 else ret Unbound) ;;
              hook <- read_local "hook" hook ;;
              ret (config, scope, hook)) w2
         end.
Proof.
  intros Hin Hload.
  destruct (registry_entry_shape name Hin)
    as (info & scope & Hinfo & Hscope & Hsc & Hdef & Hex & HF & HN).
  destruct (apply_service_defaults_spec config _ HF HN w1) as (w2 & Hrun & _).
  exists scope, w2. split; [exact Hsc |]. split; [exact Hrun |].
  unfold load_config.
  unfold bind at 1. unfold lift at 1. rewrite Hinfo.
  unfold bind at 1. unfold lift at 1. rewrite Hscope.
  unfold bind at 1. rewrite Hload.
  unfold bind at 1. unfold lift at 1. rewrite Hdef. cbn [py_items].
  unfold bind at 1. rewrite Hrun.
  rewrite Hex.
  destruct (service_exchange name) as [x |]; reflexivity.
Qed.

(** Building the hook and returning touch nothing in the world. *)
Lemma load_config_tail_pure (x : pyval) (config : ref) (scope : pyval) (w2 : World) :
  snd ((hook <-
          (if negb (is_none x) then
             token_url <- lift (py_getitem x "token_url") ;;
             audience <- lift (py_getitem x "audience") ;;
             subject_issuer <- lift (py_getitem x "subject_issuer") ;;
             client_id <- lift (py_get x "client_id" PNone) ;;
             ret (Bound (Some (_exchange_hook repr_str http token_url audience
                                 subject_issuer client_id)))
           else ret Unbound) ;;
        hook <- read_local "hook" hook ;;
        ret (config, scope, hook)) w2) = w2.
Proof.
  unfold bind, lift, ret.
  destruct (negb (is_none x)); [| reflexivity].
  destruct (py_getitem x "token_url"); [| reflexivity].
  destruct (py_getitem x "audience"); [| reflexivity].
  destruct (py_getitem x "subject_issuer"); [| reflexivity].
  destruct (py_get x "client_id" PNone); reflexivity.
Qed.

(** The world that [load_config] leaves is the one the defaults loop
    leaves. *)
Lemma load_config_world (name : string) (w w1 : World) (config : ref) :
  In name registered_names ->
  Conflator_load w = (Ok config, w1) ->
  apply_service_defaults config (service_defaults name) w1
  = (Ok tt, world_after (load_config repr_str http Conflator_load name) w).
Proof.
  intros Hin Hload.
  destruct (load_config_run name w w1 config Hin Hload)
    as (scope & w2 & _ & Hrun & Hlc).
  rewrite Hrun. f_equal. unfold world_after. rewrite Hlc.
  destruct (service_exchange name) as [x |]; [| reflexivity].
  symmetry. apply load_config_tail_pure.
Qed.

(** C7: for a registered service, [load_config] changes the loaded
    configuration object in those attributes only that were [None] and have
    an entry in the service's registry defaults, and sets each of them to
    that entry; an attribute that was not [None], and one the defaults do
    not name, is left as it was.  No other configuration object changes and
    no request is sent. *)
Theorem load_config_applies_defaults
    (name : string) (w w1 : World) (config : ref) :
  In name registered_names ->
  Conflator_load w = (Ok config, w1) ->
  let before := heap w1 config in
  let after :=
    heap (world_after (load_config repr_str http Conflator_load name) w) config in
  (forall key v,
      attr_is_none (getattr before key (APy PNone)) = true ->
      dict_lookup (service_defaults name) key = Some v ->
      getattr after key (APy PNone) = APy v)
  /\ (forall key,
        attr_is_none (getattr before key (APy PNone)) = false ->
        getattr after key (APy PNone) = getattr before key (APy PNone))
  /\ (forall key,
        dict_lookup (service_defaults name) key = None ->
        getattr after key (APy PNone) = getattr before key (APy PNone))
  /\ (forall r, r <> config ->
        heap (world_after (load_config repr_str http Conflator_load name) w) r
        = heap w1 r)
  /\ sent (world_after (load_config repr_str http Conflator_load name) w) = sent w1.
Proof.
  intros Hin Hload before after.
  pose proof (load_config_world name w w1 config Hin Hload) as Hrun.
  destruct (registry_entry_shape name Hin) as (_ & _ & _ & _ & _ & _ & _ & HF & HN).
  destruct (apply_service_defaults_spec config _ HF HN w1)
    as (w2 & Hrun' & Hsent & _ & Hframe & Hattr).
  rewrite Hrun in Hrun'. injection Hrun' as <-.
  subst before after.
  repeat split.
  - intros key v Hnone Hv. rewrite Hattr. unfold defaulted. rewrite Hnone, Hv.
    reflexivity.
  - intros key Hsome. rewrite Hattr. unfold defaulted. rewrite Hsome.
    reflexivity.
  - intros key Hv. rewrite Hattr. unfold defaulted. rewrite Hv.
    destruct (attr_is_none _); reflexivity.
  - exact Hframe.
  - exact Hsent.
Qed.

(** C1 (the code departs from it): for a registered service that has no
    [token_exchange] section, [load_config] does not return: once the
    configuration is loaded, the [return] statement reads the local name
    [hook], which was never assigned, and raises [UnboundLocalError]. *)
Theorem load_config_plain_service_raises
    (name : string) (w w1 : World) (config : ref) :
  In name plain_names ->
  Conflator_load w = (Ok config, w1) ->
  result_of (load_config repr_str http Conflator_load name) w
  = Raise (UnboundLocalError "hook").
Proof.
  intros Hin Hload. apply plain_names_spec in Hin. destruct Hin as [Hin Hex].
  destruct (load_config_run name w w1 config Hin Hload)
    as (scope & w2 & _ & _ & Hlc).
  unfold result_of. rewrite Hlc, Hex. reflexivity.
Qed.

(** C6: for the service "highway", [load_config] yields a hook which, on any
    access token, is the token exchange against the highway token URL with
    client id "highway-public", audience "highway-public" and subject issuer
    "DESP_IAM_PROD": it sends that one request, and on a 200 answer carrying
    a true [access_token] it returns that exchanged token. *)
Theorem highway_hook_exchanges (w w1 : World) (config : ref) :
  Conflator_load w = (Ok config, w1) ->
  exists hook : Hook,
    result_of (load_config repr_str http Conflator_load "highway") w
    = Ok (config, PStr "openid", Some hook)
    /\ forall (access_token : string) (cfg : ref) (w2 : World),
         hook access_token cfg w2
         = token_exchange repr_str http highway_token_url access_token
             (PStr "highway-public") (PStr "highway-public")
             (PStr "DESP_IAM_PROD") None (Some 10) w2
         /\ sent (world_after (hook access_token cfg) w2)
            = (sent w2 ++ [exchange_request highway_token_url access_token
                             (PStr "highway-public") (PStr "highway-public")
                             (PStr "DESP_IAM_PROD") None None])%list
         /\ (forall (r : Response) (d : pydict pyval) (tok : pyval),
               http (sent w2)
                    (exchange_request highway_token_url access_token
                       (PStr "highway-public") (PStr "highway-public")
                       (PStr "DESP_IAM_PROD") None None) = Responded r ->
               status_code r = 200 ->
               json r = Some (PDict d) ->
               dict_lookup d "access_token" = Some tok ->
               truthy tok = true ->
               result_of (hook access_token cfg) w2 = Ok tok).
Proof.
  intros Hload.
  assert (Hin : In "highway" registered_names) by (cbn; tauto).
  destruct (load_config_run "highway" w w1 config Hin Hload)
    as (scope & w2 & Hsc & _ & Hlc).
  injection Hsc as <-.
  eexists. split.
  - unfold result_of. rewrite Hlc. reflexivity.
  - intros access_token cfg w3. split; [reflexivity |]. split.
    + exact (f_equal sent
               (token_exchange_world highway_token_url access_token
                  (PStr "highway-public") (PStr "highway-public")
                  (PStr "DESP_IAM_PROD") None (Some 10) w3)).
    + intros r d tok.
      exact (token_exchange_ok highway_token_url access_token
               (PStr "highway-public") (PStr "highway-public")
               (PStr "DESP_IAM_PROD") None (Some 10) w3 r d tok).
Qed.

(** C9: a hook that [load_config] returns does not look at its second
    argument: with the same access token, in the same world, it does the
    same thing for any two configurations.  What it does is the token
    exchange with the parameters read from the [token_exchange] section of
    the service's registry entry. *)
Theorem exchange_hook_ignores_config
    (name : string) (w w' : World) (config : ref) (scope : pyval) (hook : Hook) :
  load_config repr_str http Conflator_load name w
  = (Ok (config, scope, Some hook), w') ->
  (forall (access_token : string) (cfg1 cfg2 : ref) (w2 : World),
      hook access_token cfg1 w2 = hook access_token cfg2 w2)
  /\ exists info x token_url audience subject_issuer client_id,
       get_service_info name = Ok info
       /\ dict_lookup info "token_exchange" = Some x
       /\ py_getitem x "token_url" = Ok token_url
       /\ py_getitem x "audience" = Ok audience
       /\ py_getitem x "subject_issuer" = Ok subject_issuer
       /\ py_get x "client_id" PNone = Ok client_id
       /\ forall (access_token : string) (cfg : ref) (w2 : World),
            hook access_token cfg w2
            = token_exchange repr_str http token_url access_token client_id audience
                subject_issuer None (Some 10) w2.
Proof.
  intros H. unfold load_config in H.
  apply bind_ok_inv in H. destruct H as (info & wa & Hinfo & H).
  apply lift_ok_inv in Hinfo. destruct Hinfo as [Hinfo ->].
  apply bind_ok_inv in H. destruct H as (scope0 & wa & Hscope & H).
  apply lift_ok_inv in Hscope. destruct Hscope as [Hscope ->].
  apply bind_ok_inv in H. destruct H as (config0 & w1 & Hload & H).
  apply bind_ok_inv in H. destruct H as (items & wa & Hitems & H).
  apply lift_ok_inv in Hitems. destruct Hitems as [Hitems ->].
  apply bind_ok_inv in H. destruct H as ([] & w2 & Hrun & H).
  apply bind_ok_inv in H. destruct H as (bound & w3 & Hhook & H).
  apply bind_ok_inv in H. destruct H as (hook0 & w4 & Hread & H).
  injection H as -> -> -> ->.
  destruct bound as [| hook1]; [discriminate Hread |].
  injection Hread as -> ->.
  unfold dict_get in Hhook.
  destruct (dict_lookup info "token_exchange") as [x |] eqn:Hx;
    [| discriminate Hhook].
  destruct (negb (is_none x)); [| discriminate Hhook].
  apply bind_ok_inv in Hhook. destruct Hhook as (url & wa & Hurl & Hhook).
  apply lift_ok_inv in Hurl. destruct Hurl as [Hurl ->].
  apply bind_ok_inv in Hhook. destruct Hhook as (aud & wa & Haud & Hhook).
  apply lift_ok_inv in Haud. destruct Haud as [Haud ->].
  apply bind_ok_inv in Hhook. destruct Hhook as (iss & wa & Hiss & Hhook).
  apply lift_ok_inv in Hiss. destruct Hiss as [Hiss ->].
  apply bind_ok_inv in Hhook. destruct Hhook as (cid & wa & Hcid & Hhook).
  apply lift_ok_inv in Hcid. destruct Hcid as [Hcid ->].
  injection Hhook as <- ->.
  split.
  - reflexivity.
  - exists info, x, url, aud, iss, cid.
    repeat (split; [assumption |]). reflexivity.
Qed.

Section Api.

Variable AuthService : Type.
Variable TokenResult : Type.
Variable AuthenticationService : ref -> pyval -> option Hook -> M AuthService.
Variable login : AuthService -> bool -> M TokenResult.
Variable login_2fa : AuthService -> bool -> option string -> M TokenResult.

(** C5: when [get_token] returns, the configuration was loaded, the service
    object built, and the login operation ([login_2fa] with the given code
    when [twofa] is set, else [login]) returned some result; [get_token]
    returns nothing when [write_netrc] is set, and exactly that result when it
    is not. *)
Theorem get_token_result
    (service : string) (write_netrc verbose twofa : bool) (otp : option string)
    (w w' : World) (res : option TokenResult) :
  get_token repr_str http Conflator_load AuthenticationService login login_2fa
    service write_netrc verbose twofa otp w = (Ok res, w') ->
  exists config scope hook w1 auth_service w2 result,
    load_config repr_str http Conflator_load service
      (store_level (if verbose then logging_DEBUG else logging_INFO) w)
    = (Ok (config, scope, hook), w1)
    /\ AuthenticationService config scope hook w1 = (Ok auth_service, w2)
    /\ (if twofa then login_2fa auth_service write_netrc otp
        else login auth_service write_netrc) w2 = (Ok result, w')
    /\ res = (if write_netrc then None else Some result)
    /\ (write_netrc = true -> res = None)
    /\ (write_netrc = false -> res = Some result).
Proof.
  intros H. unfold get_token in H.
  apply bind_ok_inv in H. destruct H as ([] & w0 & Hlevel & H).
  unfold set_library_log_level in Hlevel. injection Hlevel as <-.
  apply bind_ok_inv in H. destruct H as ([[config scope] hook] & w1 & Hload & H).
  apply bind_ok_inv in H. destruct H as (auth_service & w2 & Hauth & H).
  apply bind_ok_inv in H. destruct H as (result & w3 & Hlogin & H).
  exists config, scope, hook, w1, auth_service, w2, result.
  split; [destruct verbose; exact Hload |].
  split; [exact Hauth |].
  destruct write_netrc; cbn in H; injection H as <- <-;
    (split; [exact Hlogin |]); repeat split; congruence.
Qed.

End Api.

End Properties.

(** ** api.py: the one-time code *)

(** C10: with [twofa] false, [get_token] does not depend on the one-time
    code, nor on what the two-factor login would do: for any two codes, and
    any two implementations of [login_2fa], it runs the same way from the
    same world, ending in the same result and the same world. *)
Theorem get_token_otp_irrelevant
    (repr_str : string -> string)
    (http : list PostCall -> PostCall -> PostOutcome)
    (Conflator_load : M ref)
    (AuthService TokenResult : Type)
    (AuthenticationService : ref -> pyval -> option Hook -> M AuthService)
    (login : AuthService -> bool -> M TokenResult)
    (login_2fa login_2fa' : AuthService -> bool -> option string -> M TokenResult)
    (service : string) (write_netrc verbose : bool)
    (otp otp' : option string) (w : World) :
  get_token repr_str http Conflator_load AuthenticationService login login_2fa
    service write_netrc verbose false otp w
  = get_token repr_str http Conflator_load AuthenticationService login login_2fa'
      service write_netrc verbose false otp' w.
Proof. reflexivity. Qed.

(** ** The statements at concrete inputs *)

(** A 400 answer with body [{"error":"invalid_grant"}]. *)
Lemma token_exchange_failure_invalid_grant :
  exists msg,
    result_of
      (token_exchange sample_repr_str (server_of invalid_grant_response)
         sample_token_url "iam-token" (PStr "client") (PStr "aud")
         (PStr "issuer") None None) sample_world
    = Raise (AuthenticationError msg)
    /\ str_contains "invalid_grant" msg = true.
Proof.
  apply (token_exchange_failure sample_repr_str
           (server_of invalid_grant_response) sample_token_url "iam-token"
           (PStr "client") (PStr "aud") (PStr "issuer") None None
           sample_world invalid_grant_response).
  - reflexivity.
  - discriminate.
  - reflexivity.
  - reflexivity.
Defined.

(** A 500 answer whose body is the empty JSON object: the message is
    "Exchange failed: Unknown", which is not the first 200 characters of the
    body and does not contain them. *)
Lemma token_exchange_failure_not_raw_body :
  status_code empty_object_response <> 200
  /\ result_of
       (token_exchange sample_repr_str (server_of empty_object_response)
          sample_token_url "iam-token" (PStr "client") (PStr "aud")
          (PStr "issuer") None None) sample_world
     = Raise (AuthenticationError "Exchange failed: Unknown")
  /\ spec_failure_detail sample_repr_str empty_object_response = "{}"
  /\ result_of
       (token_exchange sample_repr_str (server_of empty_object_response)
          sample_token_url "iam-token" (PStr "client") (PStr "aud")
          (PStr "issuer") None None) sample_world
     <> Raise (AuthenticationError
                 ("Exchange failed: "
                  +:+ spec_failure_detail sample_repr_str empty_object_response))
  /\ str_contains (spec_failure_detail sample_repr_str empty_object_response)
       "Exchange failed: Unknown" = false.
Proof.
  split; [discriminate |].
  split; [reflexivity |].
  split; [reflexivity |].
  split; [discriminate | reflexivity].
Qed.

(** "cacheb", with the client already set and the redirect URI still [None]:
    the redirect URI gets the registry default, the client stays. *)
Lemma load_config_applies_defaults_cacheb :
  let after :=
    heap (world_after
            (load_config sample_repr_str (server_of exchanged_response)
               sample_Conflator_load "cacheb") sample_world) 0%nat in
  getattr after "iam_redirect_uri" (APy PNone)
  = APy (PStr "https://cacheb.dcms.destine.eu/")
  /\ getattr after "iam_client" (APy PNone) = APy (PStr "client-from-env")
  /\ getattr after "user" (APy PNone) = APy (PStr "alice").
Proof.
  assert (Hin : In "cacheb" registered_names) by (cbn; tauto).
  destruct (load_config_applies_defaults sample_repr_str
              (server_of exchanged_response) sample_Conflator_load "cacheb"
              sample_world (store_config 0%nat sample_loaded_config sample_world)
              0%nat Hin eq_refl)
    as (Hset & Hkeep & Hother & _).
  cbv zeta. split; [| split].
  - apply Hset; reflexivity.
  - rewrite Hkeep; reflexivity.
  - rewrite Hother; reflexivity.
Defined.

(** "cacheb" has no [token_exchange] section: [load_config] raises. *)
Lemma load_config_cacheb_raises :
  result_of
    (load_config sample_repr_str (server_of exchanged_response)
       sample_Conflator_load "cacheb") sample_world
  = Raise (UnboundLocalError "hook").
Proof.
  apply (load_config_plain_service_raises sample_repr_str
           (server_of exchanged_response) sample_Conflator_load "cacheb"
           sample_world (store_config 0%nat sample_loaded_config sample_world)
           0%nat).
  - cbn. tauto.
  - reflexivity.
Defined.

(** "highway" against a remote end that answers with an exchanged token. *)
Lemma highway_hook_exchanges_sample :
  exists hook : Hook,
    result_of
      (load_config sample_repr_str (server_of exchanged_response)
         sample_Conflator_load "highway") sample_world
    = Ok (0%nat, PStr "openid", Some hook)
    /\ result_of (hook "iam-token" 0%nat) sample_world
       = Ok (PStr "exchanged-token").
Proof.
  destruct (highway_hook_exchanges sample_repr_str
              (server_of exchanged_response) sample_Conflator_load
              sample_world (store_config 0%nat sample_loaded_config sample_world)
              0%nat eq_refl)
    as (hook & Hres & Hhook).
  exists hook. split; [exact Hres |].
  destruct (Hhook "iam-token" 0%nat sample_world) as (_ & _ & Hok).
  apply (Hok exchanged_response [("access_token", PStr "exchanged-token")]);
    reflexivity.
Defined.

(** The hook of "hda" gives the same outcome for two configurations. *)
Lemma exchange_hook_ignores_config_hda :
  _exchange_hook sample_repr_str (server_of exchanged_response)
    (PStr "https://identity.data.destination-earth.eu/auth/realms/dedl/protocol/openid-connect/token")
    (PStr "hda-public") (PStr "desp-oidc") (PStr "hda-public")
    "iam-token" 0%nat sample_world
  = _exchange_hook sample_repr_str (server_of exchanged_response)
      (PStr "https://identity.data.destination-earth.eu/auth/realms/dedl/protocol/openid-connect/token")
      (PStr "hda-public") (PStr "desp-oidc") (PStr "hda-public")
      "iam-token" 7%nat sample_world.
Proof.
  apply (exchange_hook_ignores_config sample_repr_str
           (server_of exchanged_response) sample_Conflator_load "hda"
           sample_world
           (world_after
              (load_config sample_repr_str (server_of exchanged_response)
                 sample_Conflator_load "hda") sample_world)
           0%nat (PStr "openid")).
  reflexivity.
Defined.

(** [get_token("highway")] with [write_netrc] false. *)
Lemma get_token_result_highway :
  result_of
    (get_token sample_repr_str (server_of exchanged_response)
       sample_Conflator_load sample_AuthenticationService sample_login
       sample_login_2fa "highway" false false false None) sample_world
  = Ok (Some (PStr "exchanged-token"))
  /\ exists result : pyval,
       Some (PStr "exchanged-token") = (if false then None else Some result).
Proof.
  split; [reflexivity |].
  destruct (get_token_result sample_repr_str (server_of exchanged_response)
              sample_Conflator_load sample_service pyval
              sample_AuthenticationService sample_login sample_login_2fa
              "highway" false false false None sample_world
              (world_after
                 (get_token sample_repr_str (server_of exchanged_response)
                    sample_Conflator_load sample_AuthenticationService
                    sample_login sample_login_2fa "highway" false false false
                    None) sample_world)
              (Some (PStr "exchanged-token")) eq_refl)
    as (_ & _ & _ & _ & _ & _ & result & _ & _ & _ & Hres & _).
  exists result. exact Hres.
Defined.

(** * Further properties *)

(** ** Strings *)

Lemma substring_0_length (n : nat) (s : string) :
  String.length (String.substring 0 n s) = Nat.min n (String.length s).
Proof.
  revert s. induction n as [| n IH]; intros [| c s]; cbn; try reflexivity.
  rewrite IH. reflexivity.
Qed.

Lemma substring_0_prefix (n : nat) (s : string) :
  String.prefix (String.substring 0 n s) s = true.
Proof.
  revert s. induction n as [| n IH]; intros [| c s]; cbn; try reflexivity.
  destruct (Ascii.ascii_dec c c) as [_ | Hne]; [apply IH | contradiction].
Qed.

(** ** hooks.py: edges of [token_exchange] *)

Section ExchangeEdges.

Variable repr_str : string -> string.
Variable http : list PostCall -> PostCall -> PostOutcome.
Variables (token_url : pyval) (subject_token : string) (client_id : pyval)
          (audience : pyval) (subject_issuer : pyval)
          (subject_token_type : option string) (timeout : option Z).

(** X1: when the POST itself fails (no connection, timeout), [token_exchange]
    lets that exception through as it is: it is not turned into an
    [AuthenticationError], and the one request stays recorded as attempted. *)
Theorem token_exchange_network_failure (w : World) (kind : string) :
  http (sent w)
       (exchange_request token_url subject_token client_id audience
          subject_issuer subject_token_type timeout) = NetworkError kind ->
  token_exchange repr_str http token_url subject_token client_id audience
    subject_issuer subject_token_type timeout w
  = (Raise (RequestException kind),
     record_post
       (exchange_request token_url subject_token client_id audience
          subject_issuer subject_token_type timeout) w).
Proof.
  intros H.
  pose proof (token_exchange_network_error repr_str http token_url
                subject_token client_id audience subject_issuer
                subject_token_type timeout w kind H) as Hres.
  pose proof (token_exchange_world repr_str http token_url subject_token
                client_id audience subject_issuer subject_token_type
                timeout w) as Hw.
  unfold result_of in Hres. unfold world_after in Hw.
  destruct (token_exchange repr_str http token_url subject_token client_id
              audience subject_issuer subject_token_type timeout w) as [res w'].
  cbn in Hres, Hw. subst. reflexivity.
Qed.

(** X2: on a 200 answer the failures are not all [AuthenticationError]: a
    body that does not parse as JSON lets the decoding error through, and a
    JSON body that is not an object (a list, a string, a number, null) ends
    in an [AttributeError]. *)
Theorem token_exchange_ok_status_bad_body (w : World) (r : Response) :
  http (sent w)
       (exchange_request token_url subject_token client_id audience
          subject_issuer subject_token_type timeout) = Responded r ->
  status_code r = 200 ->
  (json r = None ->
   result_of
     (token_exchange repr_str http token_url subject_token client_id audience
        subject_issuer subject_token_type timeout) w = Raise JSONDecodeError)
  /\ (forall body : pyval,
        json r = Some body ->
        (forall d, body <> PDict d) ->
        exists msg,
          result_of
            (token_exchange repr_str http token_url subject_token client_id
               audience subject_issuer subject_token_type timeout) w
          = Raise (AttributeError msg)).
Proof.
  intros H Hs.
  pose proof (token_exchange_status_200 repr_str http token_url subject_token
                client_id audience subject_issuer subject_token_type timeout
                w r H Hs) as E.
  cbv zeta in E. unfold response_json in E.
  split.
  - intros Hj. rewrite E, Hj. reflexivity.
  - intros body Hj Hnot. rewrite E, Hj.
    destruct body; try (eexists; reflexivity).
    exfalso. exact (Hnot d eq_refl).
Qed.

(** X3: on a non-200 answer whose body is not a JSON object, the reported
    detail is the raw text cut to its first 200 characters: a prefix of the
    text, of length the smaller of 200 and the length of the text. *)
Theorem token_exchange_failure_truncates (w : World) (r : Response) :
  http (sent w)
       (exchange_request token_url subject_token client_id audience
          subject_issuer subject_token_type timeout) = Responded r ->
  status_code r <> 200 ->
  body_is_object r = false ->
  exists detail,
    result_of
      (token_exchange repr_str http token_url subject_token client_id audience
         subject_issuer subject_token_type timeout) w
    = Raise (AuthenticationError ("Exchange failed: " +:+ detail))
    /\ String.prefix detail (text r) = true
    /\ String.length detail = Nat.min 200 (String.length (text r)).
Proof.
  intros H Hs Hobj.
  pose proof (token_exchange_status_other repr_str http token_url
                subject_token client_id audience subject_issuer
                subject_token_type timeout w r H Hs) as E.
  cbv zeta in E. unfold failure_detail in E. rewrite Hobj in E.
  exists (String.substring 0 200 (text r)).
  split; [exact E |]. split.
  - apply substring_0_prefix.
  - apply substring_0_length.
Qed.


End ExchangeEdges.

(** ** services.py: the registry table *)

Lemma registry_defaults_keys (name : string) :
  In name registered_names ->
  exists client redirect,
    service_defaults name
    = [("iam_client", PStr client); ("iam_redirect_uri", PStr redirect)].
Proof.
  intros H. cbn in H.
  repeat (destruct H as [<- | H]; [do 2 eexists; reflexivity |]).
  destruct H.
Qed.

Lemma registry_exchange_cases (name : string) :
  In name registered_names ->
  (service_exchange name = None /\ ~ In name exchange_names)
  \/ (In name exchange_names
      /\ exists url aud iss cid,
          service_exchange name
          = Some (PDict [ ("token_url", PStr url); ("audience", PStr aud);
                          ("subject_issuer", PStr iss); ("client_id", PStr cid) ])).
Proof.
  intros H. cbn in H.
  repeat (destruct H as [<- | H];
          [ first
              [ left; split; [reflexivity | cbn; intuition discriminate]
              | right; split; [cbn; tauto | do 4 eexists; reflexivity] ]
          | ]).
  destruct H.
Qed.

Lemma unregistered_lookup (name : string) :
  ~ In name registered_names ->
  get_service_info name = Raise (ValueError (unknown_service_message name)).
Proof.
  intros H. unfold get_service_info.
  replace (dict_lookup _REGISTRY name) with (@None (pydict pyval)).
  - reflexivity.
  - symmetry. apply dict_lookup_none. exact H.
Qed.

(** X5: for a name that [list_services] does not list, [get_service_info]
    raises a [ValueError] whose message names the rejected service and then
    lists the eight available ones, in the order of the registry, separated
    by a comma and a space. *)
Theorem get_service_info_unknown_message (name : string) :
  ~ In name list_services ->
  get_service_info name
  = Raise (ValueError
             ("Unknown service: " +:+ name
              +:+ ". Available: cacheb, streamer, insula, eden, dea, highway, polytope, hda")).
Proof.
  intros H. apply unregistered_lookup. exact H.
Qed.

(** X6: [list_services] and [get_service_info] agree: a name is listed
    exactly when its lookup succeeds, and no name is listed twice. *)
Theorem list_services_agrees (name : string) :
  (In name list_services <-> exists info, get_service_info name = Ok info)
  /\ List.NoDup list_services.
Proof.
  split.
  - unfold list_services, get_service_info.
    pose proof (dict_lookup_none _REGISTRY name) as Hnone.
    destruct (dict_lookup _REGISTRY name) as [info |].
    + split.
      * intros _. exists info. reflexivity.
      * intros _. destruct (in_dec string_dec name (dict_keys _REGISTRY)) as [Hin | Hn].
        -- exact Hin.
        -- apply Hnone in Hn. discriminate Hn.
    + split.
      * intros Hin. exfalso. apply (proj1 Hnone); [reflexivity | exact Hin].
      * intros [info Hinfo]. discriminate Hinfo.
  - repeat constructor; cbn; intuition discriminate.
Qed.

(** ** configs.py: a configuration is what its attributes are *)

Lemma getattr_ext (c1 c2 : BaseConfig) :
  (forall key, getattr c1 key (APy PNone) = getattr c2 key (APy PNone)) ->
  c1 = c2.
Proof.
  intros H. destruct c1, c2.
  pose proof (H "user") as H1. pose proof (H "password") as H2.
  pose proof (H "iam_url") as H3. pose proof (H "iam_realm") as H4.
  pose proof (H "iam_client") as H5. pose proof (H "iam_redirect_uri") as H6.
  pose proof (H "scope") as H7. pose proof (H "exchange_config") as H8.
  cbn in H1, H2, H3, H4, H5, H6, H7, H8.
  congruence.
Qed.

Lemma defaulted_idempotent (items : pydict pyval) (key : string) (before : attr) :
  defaulted items key (defaulted items key before) = defaulted items key before.
Proof.
  unfold defaulted.
  destruct (attr_is_none before) eqn:Hb.
  - destruct (dict_lookup items key) as [v |].
    + destruct (attr_is_none (APy v)); reflexivity.
    + rewrite Hb. reflexivity.
  - rewrite Hb. reflexivity.
Qed.

(** ** services.py: the defaults loop, again *)

(** X7: the defaults loop is idempotent: over a defaults map with distinct
    keys, each a declared field with a value that the field's annotation
    admits (a string, or [None] where the field is optional), the loop
    succeeds, and a second run succeeds too, changes no configuration object
    and sends nothing. *)
Theorem apply_service_defaults_idempotent
    (config : ref) (items : pydict pyval) (w : World) :
  Forall (fun kv => assignable (fst kv) (snd kv) = true) items ->
  List.NoDup (dict_keys items) ->
  let w1 := world_after (apply_service_defaults config items) w in
  let w2 := world_after (apply_service_defaults config items) w1 in
  result_of (apply_service_defaults config items) w = Ok tt
  /\ result_of (apply_service_defaults config items) w1 = Ok tt
  /\ (forall r, heap w2 r = heap w1 r)
  /\ sent w2 = sent w1.
Proof.
  intros HF HN. cbv zeta. unfold world_after, result_of.
  destruct (apply_service_defaults_spec config items HF HN w)
    as (w1 & Hrun1 & _ & _ & _ & Hattr1).
  rewrite Hrun1. cbn [fst snd].
  destruct (apply_service_defaults_spec config items HF HN w1)
    as (w2 & Hrun2 & Hsent2 & _ & Hframe2 & Hattr2).
  rewrite Hrun2. cbn [fst snd].
  split; [reflexivity |]. split; [reflexivity |]. split; [| exact Hsent2].
  intros r. destruct (Nat.eq_dec r config) as [-> | Hne].
  - apply getattr_ext. intros key.
    rewrite Hattr2, Hattr1. apply defaulted_idempotent.
  - apply Hframe2. exact Hne.
Qed.

(** ** services.py: edges of [load_config] *)

Section LoadConfigEdges.

Variable repr_str : string -> string.
Variable http : list PostCall -> PostCall -> PostOutcome.
Variable Conflator_load : M ref.

Lemma load_config_unregistered (name : string) (w : World) :
  ~ In name registered_names ->
  load_config repr_str http Conflator_load name w
  = (Raise (ValueError (unknown_service_message name)), w).
Proof.
  intros H. unfold load_config, bind, lift.
  rewrite (unregistered_lookup name H). reflexivity.
Qed.

Lemma load_config_attrs (name : string) (w w1 : World) (config : ref) :
  In name registered_names ->
  Conflator_load w = (Ok config, w1) ->
  forall key,
    getattr (heap (world_after (load_config repr_str http Conflator_load name) w)
               config) key (APy PNone)
    = defaulted (service_defaults name) key
        (getattr (heap w1 config) key (APy PNone)).
Proof.
  intros Hin Hload key.
  pose proof (load_config_world repr_str http Conflator_load name w w1 config
                Hin Hload) as Hrun.
  destruct (registry_entry_shape name Hin) as (_ & _ & _ & _ & _ & _ & _ & HF & HN).
  destruct (apply_service_defaults_spec config _ HF HN w1)
    as (w2 & Hrun' & _ & _ & _ & Hattr).
  rewrite Hrun in Hrun'. injection Hrun' as <-.
  apply Hattr.
Qed.

(** X8: an unregistered service name is rejected before anything else
    happens: [load_config] raises the [ValueError] of the registry and the
    world is as it was, so the configuration loader has not run. *)
Theorem load_config_unknown_service (name : string) (w : World) :
  ~ In name registered_names ->
  load_config repr_str http Conflator_load name w
  = (Raise (ValueError (unknown_service_message name)), w).
Proof.
  apply load_config_unregistered.
Qed.

(** X9: for a registered service, a failure of the configuration loader
    is what [load_config] ends in, in the world the loader left: no default
    is applied and no hook is built. *)
Theorem load_config_loader_failure
    (name : string) (w w1 : World) (e : exn) :
  In name registered_names ->
  Conflator_load w = (Raise e, w1) ->
  load_config repr_str http Conflator_load name w = (Raise e, w1).
Proof.
  intros Hin Hload.
  destruct (registry_entry_shape name Hin)
    as (info & scope & Hinfo & Hscope & _).
  unfold load_config.
  unfold bind at 1. unfold lift at 1. rewrite Hinfo.
  unfold bind at 1. unfold lift at 1. rewrite Hscope.
  unfold bind at 1. rewrite Hload. reflexivity.
Qed.

(** X10: for a registered service whose configuration loads, [load_config]
    returns exactly when the registry entry has a [token_exchange] section
    (highway and hda); what it then returns is the loaded configuration
    object, the scope of the registry entry, and a hook. *)
Theorem load_config_returns_iff
    (name : string) (w w1 : World) (config : ref) :
  In name registered_names ->
  Conflator_load w = (Ok config, w1) ->
  ((exists v, result_of (load_config repr_str http Conflator_load name) w = Ok v)
   <-> In name exchange_names)
  /\ (forall c s h,
        result_of (load_config repr_str http Conflator_load name) w
        = Ok (c, s, h) ->
        c = config /\ service_scope name = Some s /\ h <> None).
Proof.
  intros Hin Hload.
  destruct (load_config_run repr_str http Conflator_load name w w1 config
              Hin Hload) as (scope & w2 & Hsc & _ & Hlc).
  unfold result_of. rewrite Hlc.
  destruct (registry_exchange_cases name Hin)
    as [[Hex Hnot] | [Hyes (url & aud & iss & cid & Hex)]]; rewrite Hex.
  - split.
    + split; [intros [v Hv]; discriminate Hv | intros H; contradiction].
    + intros c s h Hv. discriminate Hv.
  - split.
    + split; [intros _; exact Hyes | intros _; eexists; reflexivity].
    + intros c s h Hv. cbn in Hv. injection Hv as <- <- <-.
      split; [reflexivity |]. split; [exact Hsc | discriminate].
Qed.

(** X11: after [load_config] on a registered service, the client and the
    redirect URI of the loaded configuration each hold the loaded value if
    that was not [None], and else the default that the registry entry of
    the service gives for the field; neither is ever [None]. *)
Theorem load_config_sets_client_and_redirect
    (name : string) (w w1 : World) (config : ref) :
  In name registered_names ->
  Conflator_load w = (Ok config, w1) ->
  let before := heap w1 config in
  let after :=
    heap (world_after (load_config repr_str http Conflator_load name) w) config in
  exists client redirect,
    dict_lookup (service_defaults name) "iam_client" = Some client
    /\ dict_lookup (service_defaults name) "iam_redirect_uri" = Some redirect
    /\ iam_client after
       = (if is_none (iam_client before) then client else iam_client before)
    /\ iam_redirect_uri after
       = (if is_none (iam_redirect_uri before) then redirect
          else iam_redirect_uri before)
    /\ is_none (iam_client after) = false
    /\ is_none (iam_redirect_uri after) = false.
Proof.
  intros Hin Hload. cbv zeta.
  pose proof (load_config_attrs name w w1 config Hin Hload) as Hattr.
  destruct (registry_defaults_keys name Hin) as (client & redirect & Hd).
  pose proof (Hattr "iam_client") as Hc.
  pose proof (Hattr "iam_redirect_uri") as Hr.
  rewrite Hd in Hc, Hr. unfold defaulted in Hc, Hr. cbn in Hc, Hr.
  exists (PStr client), (PStr redirect). rewrite Hd.
  split; [reflexivity |]. split; [reflexivity |].
  destruct (is_none (iam_client (heap w1 config))) eqn:Hb1;
    destruct (is_none (iam_redirect_uri (heap w1 config))) eqn:Hb2;
    injection Hc as Hc; injection Hr as Hr; rewrite Hc, Hr;
    repeat split; first [reflexivity | assumption].
Qed.

(** X12: when the loaded configuration already has a client and a redirect
    URI, [load_config] on a registered service leaves the configuration
    object exactly as loaded. *)
Theorem load_config_keeps_explicit_config
    (name : string) (w w1 : World) (config : ref) :
  In name registered_names ->
  Conflator_load w = (Ok config, w1) ->
  is_none (iam_client (heap w1 config)) = false ->
  is_none (iam_redirect_uri (heap w1 config)) = false ->
  heap (world_after (load_config repr_str http Conflator_load name) w) config
  = heap w1 config.
Proof.
  intros Hin Hload Hc Hr.
  apply getattr_ext. intros key.
  rewrite (load_config_attrs name w w1 config Hin Hload key).
  destruct (registry_defaults_keys name Hin) as (client & redirect & Hd).
  rewrite Hd. unfold defaulted. cbn [dict_lookup].
  destruct (String.eqb_spec "iam_client" key) as [<- | _].
  - cbn. rewrite Hc. reflexivity.
  - destruct (String.eqb_spec "iam_redirect_uri" key) as [<- | _].
    + cbn. rewrite Hr. reflexivity.
    + destruct (attr_is_none _); reflexivity.
Qed.

(** ** api.py: edges of [get_token] *)

Section ApiEdges.

Variable AuthService : Type.
Variable TokenResult : Type.
Variable AuthenticationService : ref -> pyval -> option Hook -> M AuthService.
Variable login : AuthService -> bool -> M TokenResult.
Variable login_2fa : AuthService -> bool -> option string -> M TokenResult.

(** X13: [get_token] on an unregistered service name raises the registry's
    [ValueError]; by then it has set the level of the library logger (DEBUG
    when verbose, else INFO) and done nothing else: no configuration is
    loaded, no service object is built, no request is sent. *)
Theorem get_token_unknown_service
    (service : string) (write_netrc verbose twofa : bool) (otp : option string)
    (w : World) :
  ~ In service registered_names ->
  get_token repr_str http Conflator_load AuthenticationService login login_2fa
    service write_netrc verbose twofa otp w
  = (Raise (ValueError (unknown_service_message service)),
     store_level (if verbose then logging_DEBUG else logging_INFO) w).
Proof.
  intros H. unfold get_token.
  unfold bind at 1. unfold set_library_log_level.
  unfold bind at 1.
  rewrite (load_config_unregistered service _ H).
  destruct verbose; reflexivity.
Qed.

(** X14: [get_token] on a registered service without a [token_exchange]
    section fails once the configuration is loaded: it raises the
    [UnboundLocalError] of [load_config], in the world [load_config] left, so
    the service object is never built and no login is attempted. *)
Theorem get_token_plain_service
    (service : string) (write_netrc verbose twofa : bool) (otp : option string)
    (w w1 : World) (config : ref) :
  In service plain_names ->
  Conflator_load (store_level (if verbose then logging_DEBUG else logging_INFO) w)
  = (Ok config, w1) ->
  get_token repr_str http Conflator_load AuthenticationService login login_2fa
    service write_netrc verbose twofa otp w
  = (Raise (UnboundLocalError "hook"),
     world_after (load_config repr_str http Conflator_load service)
       (store_level (if verbose then logging_DEBUG else logging_INFO) w)).
Proof.
  intros Hin Hload. apply plain_names_spec in Hin. destruct Hin as [Hin Hex].
  destruct (load_config_run repr_str http Conflator_load service _ w1 config
              Hin Hload) as (scope & w2 & _ & _ & Hlc).
  rewrite Hex in Hlc.
  unfold get_token.
  unfold bind at 1. unfold set_library_log_level.
  replace (if negb verbose then logging_INFO else logging_DEBUG)
    with (if verbose then logging_DEBUG else logging_INFO)
    by (destruct verbose; reflexivity).
  unfold bind at 1. unfold world_after. rewrite Hlc. reflexivity.
Qed.

(** X15: [get_token] handles no error of the authentication: when the
    service object cannot be built, or when the selected login operation
    raises, [get_token] raises that same exception, whether or not
    [write_netrc] is set; in the first case no login is attempted. *)
Theorem get_token_propagates_failure
    (service : string) (write_netrc verbose twofa : bool) (otp : option string)
    (w w1 : World) (config : ref) (scope : pyval) (hook : option Hook) :
  load_config repr_str http Conflator_load service
    (store_level (if verbose then logging_DEBUG else logging_INFO) w)
  = (Ok (config, scope, hook), w1) ->
  (forall e w2,
      AuthenticationService config scope hook w1 = (Raise e, w2) ->
      get_token repr_str http Conflator_load AuthenticationService login
        login_2fa service write_netrc verbose twofa otp w = (Raise e, w2))
  /\ (forall auth_service w2 e w3,
        AuthenticationService config scope hook w1 = (Ok auth_service, w2) ->
        (if twofa then login_2fa auth_service write_netrc otp
         else login auth_service write_netrc) w2 = (Raise e, w3) ->
        get_token repr_str http Conflator_load AuthenticationService login
          login_2fa service write_netrc verbose twofa otp w = (Raise e, w3)).
Proof.
  intros Hload.
  assert (Hstart :
            forall k : ref * pyval * option Hook -> M (option TokenResult),
              bind (set_library_log_level
                      (if negb verbose then logging_INFO else logging_DEBUG))
                   (fun _ =>
                      bind (load_config repr_str http Conflator_load service) k) w
              = k (config, scope, hook) w1).
  { intros k. unfold bind at 1. unfold set_library_log_level.
    replace (if negb verbose then logging_INFO else logging_DEBUG)
      with (if verbose then logging_DEBUG else logging_INFO)
      by (destruct verbose; reflexivity).
    unfold bind at 1. rewrite Hload. reflexivity. }
  split.
  - intros e w2 Hauth. unfold get_token. rewrite Hstart.
    unfold bind at 1. rewrite Hauth. reflexivity.
  - intros auth_service w2 e w3 Hauth Hlogin. unfold get_token. rewrite Hstart.
    unfold bind at 1. rewrite Hauth.
    unfold bind at 1. rewrite Hlogin. reflexivity.
Qed.

End ApiEdges.

End LoadConfigEdges.

(** ** The further statements at concrete inputs *)

Lemma token_exchange_network_failure_down :
  token_exchange sample_repr_str server_down sample_token_url "iam-token"
    (PStr "client") (PStr "aud") (PStr "issuer") None None sample_world
  = (Raise (RequestException "ConnectionError"),
     record_post
       (exchange_request sample_token_url "iam-token" (PStr "client")
          (PStr "aud") (PStr "issuer") None None) sample_world).
Proof.
  apply (token_exchange_network_failure sample_repr_str server_down
           sample_token_url "iam-token" (PStr "client") (PStr "aud")
           (PStr "issuer") None None sample_world "ConnectionError").
  reflexivity.
Defined.

Lemma token_exchange_html_body :
  result_of
    (token_exchange sample_repr_str (server_of html_ok_response)
       sample_token_url "iam-token" (PStr "client") (PStr "aud")
       (PStr "issuer") None None) sample_world
  = Raise JSONDecodeError
  /\ exists msg,
       result_of
         (token_exchange sample_repr_str (server_of list_ok_response)
            sample_token_url "iam-token" (PStr "client") (PStr "aud")
            (PStr "issuer") None None) sample_world
       = Raise (AttributeError msg).
Proof.
  split.
  - apply (token_exchange_ok_status_bad_body sample_repr_str
             (server_of html_ok_response) sample_token_url "iam-token"
             (PStr "client") (PStr "aud") (PStr "issuer") None None
             sample_world html_ok_response eq_refl eq_refl).
    reflexivity.
  - apply (proj2 (token_exchange_ok_status_bad_body sample_repr_str
                    (server_of list_ok_response) sample_token_url "iam-token"
                    (PStr "client") (PStr "aud") (PStr "issuer") None None
                    sample_world list_ok_response eq_refl eq_refl)
             (PList [])).
    + reflexivity.
    + discriminate.
Defined.

Lemma token_exchange_bad_gateway :
  exists detail,
    result_of
      (token_exchange sample_repr_str (server_of bad_gateway_response)
         sample_token_url "iam-token" (PStr "client") (PStr "aud")
         (PStr "issuer") None None) sample_world
    = Raise (AuthenticationError ("Exchange failed: " +:+ detail))
    /\ String.prefix detail "Bad Gateway" = true
    /\ String.length detail = 11%nat.
Proof.
  apply (token_exchange_failure_truncates sample_repr_str
           (server_of bad_gateway_response) sample_token_url "iam-token"
           (PStr "client") (PStr "aud") (PStr "issuer") None None
           sample_world bad_gateway_response).
  - reflexivity.
  - discriminate.
  - reflexivity.
Defined.

Lemma get_service_info_unknown_message_nope :
  get_service_info "nope"
  = Raise (ValueError
             ("Unknown service: nope"
              +:+ ". Available: cacheb, streamer, insula, eden, dea, highway, polytope, hda")).
Proof.
  apply (get_service_info_unknown_message "nope").
  cbn. intuition discriminate.
Defined.

Lemma apply_service_defaults_idempotent_cacheb :
  result_of (apply_service_defaults 0%nat (service_defaults "cacheb"))
    (world_after (apply_service_defaults 0%nat (service_defaults "cacheb"))
       sample_world)
  = Ok tt
  /\ forall r,
       heap (world_after (apply_service_defaults 0%nat (service_defaults "cacheb"))
               (world_after
                  (apply_service_defaults 0%nat (service_defaults "cacheb"))
                  sample_world)) r
       = heap (world_after
                 (apply_service_defaults 0%nat (service_defaults "cacheb"))
                 sample_world) r.
Proof.
  destruct (apply_service_defaults_idempotent 0%nat (service_defaults "cacheb")
              sample_world) as (_ & Hrun & Hheap & _).
  - repeat constructor.
  - repeat constructor; cbn; intuition discriminate.
  - split; [exact Hrun | exact Hheap].
Defined.

Lemma load_config_unknown_service_nope :
  load_config sample_repr_str server_down sample_Conflator_load "nope"
    sample_world
  = (Raise (ValueError (unknown_service_message "nope")), sample_world).
Proof.
  apply (load_config_unknown_service sample_repr_str server_down
           sample_Conflator_load "nope" sample_world).
  cbn. intuition discriminate.
Defined.

Lemma load_config_loader_failure_eden :
  load_config sample_repr_str server_down failing_Conflator_load "eden"
    sample_world
  = (Raise (ExternalError "ValidationError"), sample_world).
Proof.
  apply (load_config_loader_failure sample_repr_str server_down
           failing_Conflator_load "eden" sample_world sample_world
           (ExternalError "ValidationError")).
  - cbn. tauto.
  - reflexivity.
Defined.

Lemma load_config_returns_hda :
  exists v,
    result_of
      (load_config sample_repr_str server_down sample_Conflator_load "hda")
      sample_world = Ok v.
Proof.
  apply (load_config_returns_iff sample_repr_str server_down
           sample_Conflator_load "hda" sample_world
           (store_config 0%nat sample_loaded_config sample_world) 0%nat).
  - cbn. tauto.
  - reflexivity.
  - cbn. tauto.
Defined.

Lemma load_config_sets_client_and_redirect_polytope :
  iam_client
    (heap (world_after
             (load_config sample_repr_str server_down sample_Conflator_load
                "polytope") sample_world) 0%nat)
  = PStr "client-from-env"
  /\ iam_redirect_uri
       (heap (world_after
                (load_config sample_repr_str server_down sample_Conflator_load
                   "polytope") sample_world) 0%nat)
     = PStr "https://polytope.lumi.apps.dte.destination-earth.eu/".
Proof.
  destruct (load_config_sets_client_and_redirect sample_repr_str server_down
              sample_Conflator_load "polytope" sample_world
              (store_config 0%nat sample_loaded_config sample_world) 0%nat)
    as (client & redirect & Hc & Hr & Hclient & Hredirect & _).
  - cbn. tauto.
  - reflexivity.
  - injection Hc as <-. injection Hr as <-.
    split; [exact Hclient | exact Hredirect].
Defined.

Lemma load_config_keeps_explicit_config_insula :
  heap (world_after
          (load_config sample_repr_str server_down explicit_Conflator_load
             "insula") sample_world) 0%nat
  = heap (store_config 0%nat sample_explicit_config sample_world) 0%nat.
Proof.
  apply (load_config_keeps_explicit_config sample_repr_str server_down
           explicit_Conflator_load "insula" sample_world
           (store_config 0%nat sample_explicit_config sample_world) 0%nat).
  - cbn. tauto.
  - reflexivity.
  - reflexivity.
  - reflexivity.
Defined.

Lemma get_token_unknown_service_nope :
  get_token sample_repr_str server_down sample_Conflator_load
    sample_AuthenticationService sample_login sample_login_2fa
    "nope" false true false None sample_world
  = (Raise (ValueError (unknown_service_message "nope")),
     store_level (if true then logging_DEBUG else logging_INFO) sample_world).
Proof.
  apply (get_token_unknown_service sample_repr_str server_down
           sample_Conflator_load sample_service pyval
           sample_AuthenticationService sample_login sample_login_2fa
           "nope" false true false None sample_world).
  cbn. intuition discriminate.
Defined.

Lemma get_token_plain_service_eden :
  get_token sample_repr_str server_down sample_Conflator_load
    sample_AuthenticationService sample_login sample_login_2fa
    "eden" false false false None sample_world
  = (Raise (UnboundLocalError "hook"),
     world_after
       (load_config sample_repr_str server_down sample_Conflator_load "eden")
       (store_level (if false then logging_DEBUG else logging_INFO)
          sample_world)).
Proof.
  apply (get_token_plain_service sample_repr_str server_down
           sample_Conflator_load sample_service pyval
           sample_AuthenticationService sample_login sample_login_2fa
           "eden" false false false None sample_world
           (store_config 0%nat sample_loaded_config
              (store_level logging_INFO sample_world)) 0%nat).
  - cbn. tauto.
  - reflexivity.
Defined.

Lemma get_token_rejected_login_highway :
  get_token sample_repr_str server_down sample_Conflator_load
    sample_AuthenticationService rejected_login sample_login_2fa
    "highway" true false false None sample_world
  = (Raise (AuthenticationError "Invalid user credentials"),
     world_after
       (load_config sample_repr_str server_down sample_Conflator_load "highway")
       (store_level logging_INFO sample_world)).
Proof.
  apply (proj2
           (get_token_propagates_failure sample_repr_str server_down
              sample_Conflator_load sample_service pyval
              sample_AuthenticationService rejected_login sample_login_2fa
              "highway" true false false None sample_world
              (world_after
                 (load_config sample_repr_str server_down
                    sample_Conflator_load "highway")
                 (store_level logging_INFO sample_world))
              0%nat (PStr "openid")
              (Some (_exchange_hook sample_repr_str server_down
                       highway_token_url (PStr "highway-public")
                       (PStr "DESP_IAM_PROD") (PStr "highway-public")))
              eq_refl)
           (0%nat, PStr "openid",
            Some (_exchange_hook sample_repr_str server_down
                    highway_token_url (PStr "highway-public")
                    (PStr "DESP_IAM_PROD") (PStr "highway-public")))
           (world_after
              (load_config sample_repr_str server_down
                 sample_Conflator_load "highway")
              (store_level logging_INFO sample_world))).
  - reflexivity.
  - reflexivity.
Defined.

(** A 200 answer whose token is the empty string. *)
Lemma token_exchange_rejects_empty_string_token :
  result_of
    (token_exchange sample_repr_str (server_of empty_token_response)
       sample_token_url "iam-token" (PStr "client") (PStr "aud")
       (PStr "issuer") None None) sample_world
  = Raise (AuthenticationError "No access token in exchange response").
Proof.
  apply (proj1
           (token_exchange_rejects_empty_token sample_repr_str
              (server_of empty_token_response) sample_token_url "iam-token"
              (PStr "client") (PStr "aud") (PStr "issuer") None None
              sample_world)
           empty_token_response [("access_token", PStr "")]).
  - reflexivity.
  - reflexivity.
  - reflexivity.
  - right. exists (PStr ""). split; reflexivity.
Defined.

(** A 200 answer whose body is the empty JSON list: it has no [access_token]
    field, and what is raised is an [AttributeError], not the
    [AuthenticationError] for a missing token. *)
Lemma token_exchange_list_body_attribute_error :
  status_code list_ok_response = 200
  /\ body_field list_ok_response "access_token" = None
  /\ result_of
       (token_exchange sample_repr_str (server_of list_ok_response)
          sample_token_url "iam-token" (PStr "client") (PStr "aud")
          (PStr "issuer") None None) sample_world
     = Raise (AttributeError "'list' object has no attribute 'get'")
  /\ result_of
       (token_exchange sample_repr_str (server_of list_ok_response)
          sample_token_url "iam-token" (PStr "client") (PStr "aud")
          (PStr "issuer") None None) sample_world
     <> Raise (AuthenticationError "No access token in exchange response").
Proof.
  split; [reflexivity |].
  split; [reflexivity |].
  split; [reflexivity | discriminate].
Qed.
